(** * discord-adk-agent: session lifecycle and message relay of [run.py]

    A shallow embedding of the stateful core of [run.py]: the module-level
    dictionary [user_sessions], the two backend operations
    [create_adk_session] and [send_query_to_adk], and the per-message
    handler [on_message].  The chat platform, the HTTP backend, the token
    service and [uuid.uuid4] are external; they appear as fields of an
    environment record and every call to them is recorded in a log. *)

From Stdlib Require Import ZArith List String Ascii.
From Stdlib Require Import Floats.SpecFloat.
From stdpp Require Import base gmap strings pretty list.

Local Open Scope string_scope.
Local Open Scope Z_scope.

(** ** Python values decoded from JSON

    [response.json()] yields [None], [bool], [int], [float], [str],
    [list] and [dict] objects.  A [dict] keeps insertion order, so it is
    an association list here (keys distinct, as [json.loads] builds it).
    A [float] is an IEEE 754 binary64 value; only [0.0] and [-0.0] are
    false. *)

#[local] Set Warnings "-register-all".
Inductive json : Type :=
| JNull
| JBool (b : bool)
| JInt (z : Z)
| JFloat (f : spec_float)
| JStr (s : string)
| JList (l : list json)
| JDict (d : list (string * json)).

(** Exceptions that the modelled code can raise.  [ConnectionError]
    stands for everything [requests.post] itself raises (connection
    errors, timeouts, invalid URLs); [HTTPError] is raised by
    [raise_for_status]; [ResponseJSONDecodeError] by [response.json()]. *)
Inductive PyExn : Type :=
| ConnectionError
| HTTPError (status : Z)
| ResponseJSONDecodeError
| KeyError
| AttributeError
| TypeError.

Inductive Res (A : Type) : Type :=
| Ret (a : A)
| Raise (e : PyExn).
Arguments Ret {A} a.
Arguments Raise {A} e.

Module Py.

(** [bool(v)] *)
Definition truthy (v : json) : bool :=
  match v with
  | JNull => false
  | JBool b => b
  | JInt z => negb (z =? 0)
  | JFloat f => match f with S754_zero _ => false | _ => true end
  | JStr s => negb (String.eqb s "")
  | JList l => match l with [] => false | _ => true end
  | JDict d => match d with [] => false | _ => true end
  end.

(** [bool(s)] for a [str] or [None] held in an [option string]. *)
Definition truthy_str (o : option string) : bool :=
  match o with
  | None => false
  | Some s => negb (String.eqb s "")
  end.

Fixpoint dict_lookup (k : string) (d : list (string * json)) : option json :=
  match d with
  | [] => None
  | (k', v) :: d' => if String.eqb k k' then Some v else dict_lookup k d'
  end.

(** [v.get(k)]: only [dict] has the attribute. *)
Definition get (v : json) (k : string) : Res json :=
  match v with
  | JDict d => Ret (default JNull (dict_lookup k d))
  | _ => Raise AttributeError
  end.

(** [v.get(k, dflt)] *)
Definition get_default (v : json) (k : string) (dflt : json) : Res json :=
  match v with
  | JDict d => Ret (default dflt (dict_lookup k d))
  | _ => Raise AttributeError
  end.

(** [v[k]] for a [str] key [k]. *)
Definition getitem (v : json) (k : string) : Res json :=
  match v with
  | JDict d => match dict_lookup k d with
               | Some x => Ret x
               | None => Raise KeyError
               end
  | _ => Raise TypeError
  end.

(** [v == s] for a [str] literal [s]. *)
Definition eq_str (v : json) (s : string) : bool :=
  match v with
  | JStr s' => String.eqb s' s
  | _ => false
  end.

Definition chars (s : string) : list json :=
  map (fun c => JStr (String c EmptyString)) (list_ascii_of_string s).

(** The items a [for] loop visits: elements of a [list], characters of
    a [str], keys of a [dict]; other values are not iterable. *)
Definition iter (v : json) : Res (list json) :=
  match v with
  | JList l => Ret l
  | JStr s => Ret (chars s)
  | JDict d => Ret (map (fun kv => JStr (fst kv)) d)
  | _ => Raise TypeError
  end.

(** [reversed(v)]: sequences, and [dict] since Python 3.8. *)
Definition reversed (v : json) : Res (list json) :=
  match iter v with
  | Ret l => Ret (rev l)
  | Raise e => Raise e
  end.

Definition is_substring (needle s : string) : bool :=
  match String.index 0 needle s with
  | Some _ => true
  | None => false
  end.

(** [k in v] for a [str] literal [k]. *)
Definition contains (k : string) (v : json) : Res bool :=
  match v with
  | JDict d => Ret (match dict_lookup k d with Some _ => true | None => false end)
  | JList l => Ret (existsb (fun x => eq_str x k) l)
  | JStr s => Ret (is_substring k s)
  | _ => Raise TypeError
  end.

End Py.

(** ** The outside world

    One run of the message handler makes at most one token-service
    lookup per request, at most one [uuid.uuid4()] call and at most two
    HTTP posts (to different URLs), so the backend is a function of the
    request. *)

Record Request : Type := mkRequest {
  req_url : string;
  req_headers : list (string * string);
  req_data : json   (* the value handed to [json.dumps] *)
}.

(** A response: its status code and what [response.json()] decodes from
    the body ([None] when the body is not JSON). *)
Record Response : Type := mkResponse {
  status_code : Z;
  decoded_body : option json
}.

Inductive PostOutcome : Type :=
| PostRaises                      (* [requests.post] raised a RequestException *)
| PostReturns (r : Response).

Inductive ChannelKind : Type :=
| DMChannel
| TextChannel
| GroupChannel
| Thread.

Record Message : Type := mkMessage {
  author : Z;             (* [message.author.id]; users compare by id *)
  channel : ChannelKind;
  content : string
}.

Inductive Event : Type :=
| EPost (r : Request)         (* [requests.post(url, headers=..., data=...)] *)
| ETypingEnter                (* entering [message.channel.typing()] *)
| ETypingExit                 (* leaving it *)
| ESend (text : json).        (* [message.channel.send(text)] *)

Record Env : Type := mkEnv {
  ADK_BASE_URL : option string;       (* [os.getenv] gives [None] when unset *)
  ADK_APP_NAME : option string;
  client_user : Z;                    (* id of [client.user] *)
  fetch_id_token : string -> option string;   (* [None]: the fetch raised *)
  uuid4 : N;                          (* the 128-bit value of [uuid.uuid4()] *)
  requests_post : Request -> PostOutcome;
  (* [requests] >= 2.27 raises its own JSONDecodeError, which is both a
     RequestException and a json.JSONDecodeError; older versions raise
     json.JSONDecodeError only *)
  json_error_is_RequestException : bool
}.

(** [str(uuid)]: 32 lower-case hexadecimal digits grouped 8-4-4-4-12. *)
Definition hex_digit (n : N) : ascii :=
  nth (N.to_nat (n mod 16)) (list_ascii_of_string "0123456789abcdef") "0"%char.

Fixpoint hex_fixed (len : nat) (n : N) (acc : string) : string :=
  match len with
  | O => acc
  | S k => hex_fixed k (n / 16) (String (hex_digit n) acc)
  end.

Definition str_uuid (u : N) : string :=
  let hex := hex_fixed 32 u "" in
  substring 0 8 hex +:+ "-" +:+ substring 8 4 hex +:+ "-" +:+
  substring 12 4 hex +:+ "-" +:+ substring 16 4 hex +:+ "-" +:+
  substring 20 12 hex.

(** How an f-string renders a value that may be [None]. *)
Definition fmt (o : option string) : string := default "None" o.

Definition of_pystr (o : option string) : json :=
  match o with
  | Some s => JStr s
  | None => JNull
  end.

(** ** State and control

    The handler reads and writes the global [user_sessions] and talks to
    the outside; an exception aborts the computation and keeps the state
    reached so far. *)

Record State : Type := mkState {
  user_sessions : gmap Z string;
  log : list Event
}.

Definition M (A : Type) : Type := State -> Res A * State.

Definition ret {A} (a : A) : M A := fun s => (Ret a, s).

Definition raise {A} (e : PyExn) : M A := fun s => (Raise e, s).

Definition bind {A B} (m : M A) (k : A -> M B) : M B :=
  fun s => match m s with
           | (Ret a, s') => k a s'
           | (Raise e, s') => (Raise e, s')
           end.

Declare Scope py_scope.
Delimit Scope py_scope with py.
Notation "'let*' x ':=' m 'in' k" := (bind m (fun x => k))
  (at level 10, x pattern, m at level 100, k at level 200) : py_scope.
Local Open Scope py_scope.

(** [try: m  except <classes accepted by h>: ...]; the first matching
    clause handles the exception, an unmatched one propagates. *)
Definition try_except {A} (m : M A) (h : PyExn -> option (M A)) : M A :=
  fun s => match m s with
           | (Ret a, s') => (Ret a, s')
           | (Raise e, s') => match h e with
                              | Some k => k s'
                              | None => (Raise e, s')
                              end
           end.

(** [with cm: m] where leaving the block runs [fin] on every exit. *)
Definition finally {A} (m : M A) (fin : State -> State) : M A :=
  fun s => let '(r, s') := m s in (r, fin s').

Definition lift {A} (r : Res A) : M A := fun s => (r, s).

Definition emit (e : Event) : M unit :=
  fun s => (Ret tt, mkState (user_sessions s) (log s ++ [e])).

(** [user_sessions.get(k)] *)
Definition sessions_get (k : Z) : M (option string) :=
  fun s => (Ret (user_sessions s !! k), s).

(** [user_sessions[k] = v] *)
Definition sessions_setitem (k : Z) (v : string) : M unit :=
  fun s => (Ret tt, mkState (<[k := v]> (user_sessions s)) (log s)).

(** [user_sessions.clear()] *)
Definition sessions_clear : M unit :=
  fun s => (Ret tt, mkState ∅ (log s)).

(** Pure code that may raise. *)
Definition rbind {A B} (r : Res A) (k : A -> Res B) : Res B :=
  match r with
  | Ret a => k a
  | Raise e => Raise e
  end.

Section Relay.

Context (env : Env).

(** ** Google Cloud auth helper *)

Definition _get_authenticated_headers : list (string * string) :=
  let headers := [("Content-Type", "application/json")] in
  match ADK_BASE_URL env with
  | None => headers
  | Some base =>
      if String.eqb base "" then headers
      else match fetch_id_token env base with
           | Some id_token =>
               headers ++ [("Authorization", "Bearer " +:+ id_token)]
           | None => headers
           end
  end.

(** [requests.post(url, headers=headers, data=json.dumps(payload))] *)
Definition post (url : string) (headers : list (string * string))
    (payload : json) : M Response :=
  let req := mkRequest url headers payload in
  let* _ := emit (EPost req) in
  match requests_post env req with
  | PostRaises => raise ConnectionError
  | PostReturns r => ret r
  end.

(** [response.raise_for_status()]: 4xx and 5xx raise HTTPError. *)
Definition raise_for_status (response : Response) : M unit :=
  if (400 <=? status_code response) && (status_code response <? 600)
  then raise (HTTPError (status_code response))
  else ret tt.

(** [response.json()] *)
Definition response_json (response : Response) : M json :=
  match decoded_body response with
  | Some v => ret v
  | None => raise ResponseJSONDecodeError
  end.

(** [isinstance(e, requests.exceptions.RequestException)] *)
Definition is_RequestException (e : PyExn) : bool :=
  match e with
  | ConnectionError | HTTPError _ => true
  | ResponseJSONDecodeError => json_error_is_RequestException env
  | _ => false
  end.

(** [isinstance(e, (json.JSONDecodeError, KeyError))] *)
Definition is_JSONDecodeError_or_KeyError (e : PyExn) : bool :=
  match e with
  | ResponseJSONDecodeError | KeyError => true
  | _ => false
  end.

(** ** ADK API interaction *)

Definition create_adk_session (discord_user_id : string)
  : M (option string * option string) :=
  let adk_user_id := "discord_" +:+ discord_user_id in
  let adk_session_id := str_uuid (uuid4 env) in
  let url := fmt (ADK_BASE_URL env) +:+ "/apps/" +:+ fmt (ADK_APP_NAME env)
             +:+ "/users/" +:+ adk_user_id +:+ "/sessions/" +:+ adk_session_id in
  let headers := _get_authenticated_headers in
  let payload := JDict [("state", JDict [("discord_user_id", JStr discord_user_id)])] in
  try_except
    (let* response := post url headers payload in
     let* _ := raise_for_status response in
     ret (Some adk_user_id, Some adk_session_id))
    (fun e => if is_RequestException e then Some (ret (None, None)) else None).

Definition no_model_text : string :=
  "Sorry, I couldn't understand the response from the agent.".
Definition resend_apology : string :=
  "Oops. There was an error. Re-sending your question usually fixes it. (It's a session management bug).".
Definition unexpected_response : string :=
  "Sorry, I received an unexpected response from the support agent.".

(** [for part in parts: if "text" in part: return part["text"]];
    [Some v] when the loop returns [v] from the function. *)
Fixpoint scan_parts (parts : list json) : Res (option json) :=
  match parts with
  | [] => Ret None
  | part :: rest =>
      rbind (Py.contains "text" part) (fun found =>
        if found then rbind (Py.getitem part "text") (fun v => Ret (Some v))
        else scan_parts rest)
  end.

(** [item.get("content") and item.get("content").get("role") == "model"] *)
Definition is_model_item (item : json) : Res bool :=
  rbind (Py.get item "content") (fun c =>
    if Py.truthy c then
      rbind (Py.get item "content") (fun c' =>
        rbind (Py.get c' "role") (fun role => Ret (Py.eq_str role "model")))
    else Ret false).

(** The body of the outer loop for one [item]. *)
Definition scan_item (item : json) : Res (option json) :=
  rbind (is_model_item item) (fun is_model =>
    if is_model then
      rbind (Py.getitem item "content") (fun c =>
        rbind (Py.get_default c "parts" (JList [])) (fun parts =>
          rbind (Py.iter parts) scan_parts))
    else Ret None).

Fixpoint scan_items (items : list json) : Res (option json) :=
  match items with
  | [] => Ret None
  | item :: rest =>
      rbind (scan_item item) (fun r =>
        match r with
        | Some v => Ret (Some v)
        | None => scan_items rest
        end)
  end.

(** Lines 115-121: the scan over [reversed(response_data)]. *)
Definition extract_reply (response_data : json) : Res json :=
  rbind (Py.reversed response_data) (fun items =>
    rbind (scan_items items) (fun r =>
      Ret (default (JStr no_model_text) r))).

Definition send_query_to_adk (adk_user_id adk_session_id : option string)
    (user_message : string) : M json :=
  let url := fmt (ADK_BASE_URL env) +:+ "/run" in
  let headers := _get_authenticated_headers in
  let payload :=
    JDict [("appName", of_pystr (ADK_APP_NAME env));
           ("userId", of_pystr adk_user_id);
           ("sessionId", of_pystr adk_session_id);
           ("newMessage",
            JDict [("role", JStr "user");
                   ("parts", JList [JDict [("text", JStr user_message)]])])] in
  try_except
    (let* response := post url headers payload in
     let* _ := raise_for_status response in
     let* response_data := response_json response in
     lift (extract_reply response_data))
    (fun e =>
       if is_RequestException e then
         Some (let* _ := sessions_clear in ret (JStr resend_apology))
       else if is_JSONDecodeError_or_KeyError e then
         Some (ret (JStr unexpected_response))
       else None).

(** ** The message handler *)

Definition greeting : string := "Hello! How can I help you today?".
Definition no_session_created : string :=
  "Sorry, I couldn't create a new support session. Please try again later.".
Definition session_issue : string :=
  "There was an issue with your session. Please try again.".

Definition channel_send (text : json) : M unit := emit (ESend text).

Definition typing {A} (body : M A) : M A :=
  let* _ := emit ETypingEnter in
  finally body (fun s => mkState (user_sessions s) (log s ++ [ETypingExit])).

(** Lines 164-179.  [None]: the handler has replied and returned;
    [Some (current_adk_user_id, adk_session_id)]: it goes on. *)
Definition ensure_session (discord_user_id : Z)
  : M (option (option string * option string)) :=
  let adk_user_id_str := "discord_" +:+ pretty discord_user_id in
  let* adk_session_id := sessions_get discord_user_id in
  if Py.truthy_str adk_session_id then
    ret (Some (Some adk_user_id_str, adk_session_id))
  else
    let* created := create_adk_session (pretty discord_user_id) in
    let '(created_user_id, created_session_id) := created in
    (* [if created_session_id:] holds for a non-empty string only *)
    match created_session_id with
    | Some sid =>
        if negb (String.eqb sid "") then
          let* _ := sessions_setitem discord_user_id sid in
          ret (Some (created_user_id, created_session_id))
        else
          let* _ := channel_send (JStr no_session_created) in ret None
    | None =>
        let* _ := channel_send (JStr no_session_created) in ret None
    end.

Definition on_message (message : Message) : M unit :=
  if author message =? client_user env then ret tt
  else match channel message with
  | DMChannel =>
      let content_to_send := content message in
      if String.eqb content_to_send "" then
        channel_send (JStr greeting)
      else
        let* ensured := ensure_session (author message) in
        match ensured with
        | None => ret tt
        | Some (current_adk_user_id, adk_session_id) =>
            if negb (Py.truthy_str current_adk_user_id)
               || negb (Py.truthy_str adk_session_id)
            then channel_send (JStr session_issue)
            else
              typing
                (let* adk_response :=
                   send_query_to_adk current_adk_user_id adk_session_id
                                     content_to_send in
                 channel_send adk_response)
        end
  | _ => ret tt
  end.

End Relay.

(** ** Vocabulary for the statements *)

(** The request [create_adk_session] posts for a Discord user id. *)
Definition create_request (env : Env) (discord_user_id : string) : Request :=
  mkRequest
    (fmt (ADK_BASE_URL env) +:+ "/apps/" +:+ fmt (ADK_APP_NAME env)
     +:+ "/users/" +:+ ("discord_" +:+ discord_user_id)
     +:+ "/sessions/" +:+ str_uuid (uuid4 env))
    (_get_authenticated_headers env)
    (JDict [("state", JDict [("discord_user_id", JStr discord_user_id)])]).

(** The request [send_query_to_adk] posts. *)
Definition run_request (env : Env) (adk_user_id adk_session_id : option string)
    (user_message : string) : Request :=
  mkRequest
    (fmt (ADK_BASE_URL env) +:+ "/run")
    (_get_authenticated_headers env)
    (JDict [("appName", of_pystr (ADK_APP_NAME env));
            ("userId", of_pystr adk_user_id);
            ("sessionId", of_pystr adk_session_id);
            ("newMessage",
             JDict [("role", JStr "user");
                    ("parts", JList [JDict [("text", JStr user_message)]])])]).

(** A transport failure: [requests.post] raised, or the status is one
    [raise_for_status] rejects. *)
Definition transport_failure (o : PostOutcome) : bool :=
  match o with
  | PostRaises => true
  | PostReturns r => (400 <=? status_code r) && (status_code r <? 600)
  end.

(** The texts sent to the channel, in order. *)
Fixpoint replies (l : list Event) : list json :=
  match l with
  | [] => []
  | ESend t :: l' => t :: replies l'
  | _ :: l' => replies l'
  end.

(** The HTTP requests made, in order. *)
Fixpoint posts (l : list Event) : list Request :=
  match l with
  | [] => []
  | EPost r :: l' => r :: posts l'
  | _ :: l' => posts l'
  end.

(** The handler goes past its two guards. *)
Definition processed (env : Env) (m : Message) : bool :=
  negb (author m =? client_user env)
  && match channel m with DMChannel => true | _ => false end.

(** Every stored session id is a non-empty string. *)
Definition registry_wf (r : gmap Z string) : Prop :=
  ∀ u sid, r !! u = Some sid → sid ≠ "".

(** *** Turn sequences as the backend protocol describes them *)

Definition role_of (content : json) : json :=
  match content with
  | JDict d => default JNull (Py.dict_lookup "role" d)
  | _ => JNull
  end.

(** The turn carries a content object whose role is "model". *)
Definition is_model_turn (turn : json) : bool :=
  match turn with
  | JDict d =>
      match Py.dict_lookup "content" d with
      | Some (JDict c) =>
          Py.truthy (JDict c) && Py.eq_str (role_of (JDict c)) "model"
      | _ => false
      end
  | _ => false
  end.

Definition parts_of (turn : json) : list json :=
  match turn with
  | JDict d =>
      match Py.dict_lookup "content" d with
      | Some (JDict c) =>
          match Py.dict_lookup "parts" c with
          | Some (JList ps) => ps
          | _ => []
          end
      | _ => []
      end
  | _ => []
  end.

Definition text_of_part (part : json) : option json :=
  match part with
  | JDict d => Py.dict_lookup "text" d
  | _ => None
  end.

(** The first text part of a turn, if it has one. *)
Fixpoint first_text (parts : list json) : option json :=
  match parts with
  | [] => None
  | p :: ps => match text_of_part p with
               | Some t => Some t
               | None => first_text ps
               end
  end.

Definition first_text_part (turn : json) : option json :=
  first_text (parts_of turn).

Definition wf_part (part : json) : bool :=
  match part with JDict _ => true | _ => false end.

(** A turn object: an object whose [content], when present, is [null]
    or an object, whose [parts], when present, is a list of objects. *)
Definition wf_turn (turn : json) : bool :=
  match turn with
  | JDict d =>
      match Py.dict_lookup "content" d with
      | None | Some JNull => true
      | Some (JDict c) =>
          match Py.dict_lookup "parts" c with
          | None => true
          | Some (JList ps) => forallb wf_part ps
          | Some _ => false
          end
      | Some _ => false
      end
  | _ => false
  end.

(** The reading of the documentation: go to the first model-role turn
    from the back and take its first text part. *)
Definition spec_extract (turns : list json) : option json :=
  match find is_model_turn (rev turns) with
  | Some turn => first_text_part turn
  | None => None
  end.

(** What the loop computes: the first text part of the first turn, from
    the back, that is a model-role turn with a text part. *)
Definition has_text (turn : json) : bool :=
  match first_text_part turn with Some _ => true | None => false end.

Definition scan_extract (turns : list json) : option json :=
  match find (fun t => is_model_turn t && has_text t) (rev turns) with
  | Some turn => first_text_part turn
  | None => None
  end.

(** The log of [st] extended by one event. *)
Definition logged (st : State) (e : Event) : list Event := log st ++ [e].

(** ** Scenarios used as concrete inputs

    The bot is user 1; Alice is user 5 and already has session "s-5";
    user 6 has none. *)

Definition st_alice : State := mkState {[ 5 := "s-5" ]} [].

Definition hi_from_alice : Message := mkMessage 5 DMChannel "hi".

Definition backend (post : Request -> PostOutcome) : Env :=
  mkEnv (Some "http://adk") (Some "support") 1 (fun _ => Some "tok") 7%N
        post true.

(** An unreachable backend: every post raises. *)
Definition env_down : Env := backend (fun _ => PostRaises).

(** A response whose most recent model-role turn only carries a
    function call, after an older one that carries text. *)
Definition turn_text (role text : string) : json :=
  JDict [("content", JDict [("role", JStr role);
                            ("parts", JList [JDict [("text", JStr text)]])])].

Definition turn_call : json :=
  JDict [("content", JDict [("role", JStr "model");
                            ("parts", JList [JDict [("functionCall",
                                                     JDict [("name", JStr "lookup")])]])])].

Definition turns_call_last : list json :=
  [turn_text "user" "hi"; turn_text "model" "A"; turn_call].

Definition env_call_last : Env :=
  backend (fun _ => PostReturns (mkResponse 200 (Some (JList turns_call_last)))).

(** A backend that answers 200 with the JSON document [[1]]. *)
Definition body_non_object : json := JList [JInt 1].

Definition env_non_object : Env :=
  backend (fun _ => PostReturns (mkResponse 200 (Some body_non_object))).

(** A backend that answers 200 with a body that is not JSON. *)
Definition env_html : Env :=
  backend (fun _ => PostReturns (mkResponse 200 None)).

(** A backend whose model only ever calls a function. *)
Definition env_calls_only : Env :=
  backend (fun _ => PostReturns
             (mkResponse 200 (Some (JList [turn_text "user" "hi"; turn_call])))).

(** A backend that accepts every creation request and answers every run
    request with the greeting of a single model-role turn. *)
Definition env_greets : Env :=
  backend (fun r =>
    PostReturns (mkResponse 200
      (if String.eqb (req_url r) "http://adk/run"
       then Some (JList [turn_text "model" "Hi there!"])
       else None))).

(** Users 5 and 6 both hold a session. *)
Definition st_two_users : State := mkState (<[ 6 := "s-6" ]> {[ 5 := "s-5" ]}) [].

(** ** Vocabulary for whole runs *)

(** The run request ends in the first [except] clause of
    [send_query_to_adk]: the post raised, the status is rejected by
    [raise_for_status], or the body is not JSON and the decode error is
    a RequestException. *)
Definition send_clears (env : Env) (req : Request) : bool :=
  match requests_post env req with
  | PostRaises => true
  | PostReturns r =>
      ((400 <=? status_code r) && (status_code r <? 600))
      || match decoded_body r with
         | None => json_error_is_RequestException env
         | Some _ => false
         end
  end.

(** What [send_query_to_adk] hands back for the run request [req]. *)
Definition send_result (env : Env) (req : Request) : Res json :=
  match requests_post env req with
  | PostRaises => Ret (JStr resend_apology)
  | PostReturns r =>
      if (400 <=? status_code r) && (status_code r <? 600)
      then Ret (JStr resend_apology)
      else match decoded_body r with
           | None =>
               Ret (JStr (if json_error_is_RequestException env
                          then resend_apology else unexpected_response))
           | Some v => extract_reply v
           end
  end.

(** Messages handled one after the other, each by a run of [on_message]
    in the environment it meets; an exception that leaves the handler is
    dropped by the dispatcher and the state reached is kept. *)
Fixpoint handle_all (events : list (Env * Message)) (st : State) : State :=
  match events with
  | [] => st
  | (env, m) :: rest => handle_all rest (snd (on_message env m st))
  end.

(** The events a relayed message adds once its session is ensured. *)
Definition relay_events (req : Request) (r : Res json) : list Event :=
  [ETypingEnter; EPost req]
  ++ match r with Ret t => [ESend t] | Raise _ => [] end
  ++ [ETypingExit].

(** * Properties *)

Local Open Scope py_scope.
Local Open Scope list_scope.

Ltac unfold_m :=
  unfold on_message, ensure_session, typing, channel_send, send_query_to_adk,
    create_adk_session, post, raise_for_status, response_json, try_except,
    finally, bind, ret, raise, lift, emit, sessions_get, sessions_setitem,
    sessions_clear in *.

(** ** The model on sample inputs *)

Example extract_reply_last_model_text :
  extract_reply (JList [turn_text "user" "hi"; turn_text "model" "Hello";
                        turn_text "user" "more"; turn_text "model" "Bye"])
  = Ret (JStr "Bye").
Proof. reflexivity. Qed.

Example extract_reply_empty_list :
  extract_reply (JList []) = Ret (JStr no_model_text).
Proof. reflexivity. Qed.

Example extract_reply_null_body : extract_reply JNull = Raise TypeError.
Proof. reflexivity. Qed.

Example extract_reply_object_body :
  extract_reply (JDict [("detail", JStr "Not Found")]) = Raise AttributeError.
Proof. reflexivity. Qed.

Example extract_reply_parts_null :
  extract_reply (JList [JDict [("content", JDict [("role", JStr "model");
                                                  ("parts", JNull)])]])
  = Raise TypeError.
Proof. reflexivity. Qed.

(** First contact: user 6 says "hello", the session is created, the
    agent answers "Hi there!"; the registry then maps 6 to the new
    session and the reply is that text. *)
Example first_contact_scenario :
  let env := backend (fun r =>
    PostReturns (mkResponse 200
      (if String.eqb (req_url r) "http://adk/run"
       then Some (JList [turn_text "model" "Hi there!"])
       else None))) in
  let out := on_message env (mkMessage 6 DMChannel "hello") (mkState ∅ []) in
  fst out = Ret tt
  ∧ user_sessions (snd out) !! 6 = Some "00000000-0000-0000-0000-000000000007"
  ∧ replies (log (snd out)) = [JStr "Hi there!"]
  ∧ posts (log (snd out)) =
      [create_request env "6";
       run_request env (Some "discord_6")
         (Some "00000000-0000-0000-0000-000000000007") "hello"].
Proof. cbn zeta. repeat split; vm_compute; reflexivity. Qed.

(** ** Identifiers *)

Lemma str_uuid_nonempty (u : N) : String.eqb (str_uuid u) "" = false.
Proof.
  unfold str_uuid. cbn [hex_fixed]. cbn [substring]. reflexivity.
Qed.

Lemma adk_user_id_nonempty (s : string) : String.eqb ("discord_" +:+ s) "" = false.
Proof. reflexivity. Qed.

Lemma eqb_empty_false (s : string) : String.eqb s "" = false ↔ s ≠ "".
Proof.
  split.
  - intros H ->. discriminate H.
  - intros H. destruct s; [contradiction | reflexivity].
Qed.

(** ** [create_adk_session] *)

(** The call makes exactly one post and never raises; the result only
    depends on whether the post met a transport failure. *)
Lemma create_adk_session_run (env : Env) (uid : string) (st : State) :
  create_adk_session env uid st =
  (Ret (if transport_failure (requests_post env (create_request env uid))
        then (None, None)
        else (Some ("discord_" +:+ uid), Some (str_uuid (uuid4 env)))),
   mkState (user_sessions st) (log st ++ [EPost (create_request env uid)])).
Proof.
  unfold_m. fold (create_request env uid). cbn.
  destruct (requests_post env (create_request env uid)) as [|r]; cbn.
  - reflexivity.
  - destruct ((400 <=? status_code r) && (status_code r <? 600)); reflexivity.
Qed.

(** C9. Every call of [create_adk_session] returns normally, and its
    result is either a pair of two present strings or the pair
    [(None, None)]; exactly one component present never occurs. *)
Theorem create_adk_session_consistent_pair (env : Env) (uid : string) (st : State) :
  (∃ u s, fst (create_adk_session env uid st) = Ret (Some u, Some s))
  ∨ fst (create_adk_session env uid st) = Ret (None, None).
Proof.
  rewrite create_adk_session_run. cbn [fst].
  destruct (transport_failure _); [right | left; do 2 eexists]; reflexivity.
Qed.

(** ** The scan over the response *)

Lemma scan_parts_raises (parts : list json) (e : PyExn) :
  scan_parts parts = Raise e → e = TypeError.
Proof.
  induction parts as [|part rest IH]; cbn; [discriminate|].
  destruct part as [| | | | s | l | d]; cbn; try congruence.
  - destruct (Py.is_substring "text" s); cbn; [congruence | exact IH].
  - destruct (existsb _ l); cbn; [congruence | exact IH].
  - destruct (Py.dict_lookup "text" d); cbn; [discriminate | exact IH].
Qed.

Lemma lookup_of_truthy_default (o : option json) :
  Py.truthy (default JNull o) = true → ∃ c, o = Some c ∧ Py.truthy c = true.
Proof. destruct o as [c|]; cbn; [eauto | discriminate]. Qed.

Lemma scan_item_raises (item : json) (e : PyExn) :
  scan_item item = Raise e → e = AttributeError ∨ e = TypeError.
Proof.
  unfold scan_item, is_model_item.
  destruct item as [| | | | | | d]; cbn; try (intros [= <-]; auto; fail).
  destruct (Py.truthy (default JNull (Py.dict_lookup "content" d))) eqn:Ht;
    cbn; [|discriminate].
  apply lookup_of_truthy_default in Ht as (c & -> & _). cbn.
  destruct c as [| | | | | | c]; cbn; try (intros [= <-]; auto; fail).
  destruct (Py.eq_str _ "model"); cbn; [|discriminate].
  destruct (default (JList []) (Py.dict_lookup "parts" c))
    as [| | | | s | l | ps]; cbn; try (intros [= <-]; auto; fail);
    intros H%scan_parts_raises; auto.
Qed.

Lemma scan_items_raises (items : list json) (e : PyExn) :
  scan_items items = Raise e → e = AttributeError ∨ e = TypeError.
Proof.
  induction items as [|item rest IH]; cbn; [discriminate|].
  destruct (scan_item item) as [[v|]|e'] eqn:Hi; cbn.
  - discriminate.
  - exact IH.
  - intros [= <-]. eapply scan_item_raises, Hi.
Qed.

(** The scan can only fail with the two exception classes that neither
    [except] clause of [send_query_to_adk] names. *)
Lemma extract_reply_raises (v : json) (e : PyExn) :
  extract_reply v = Raise e → e = AttributeError ∨ e = TypeError.
Proof.
  unfold extract_reply, Py.reversed.
  destruct (Py.iter v) as [items|e'] eqn:Hit; cbn.
  - destruct (scan_items (rev items)) as [r|e'] eqn:Hs; cbn; [discriminate|].
    intros [= <-]. eapply scan_items_raises, Hs.
  - intros [= <-]. destruct v; cbn in Hit; try discriminate;
      injection Hit as <-; auto.
Qed.

(** ** [send_query_to_adk], case by case *)

Lemma send_query_to_adk_run (env : Env) (cu sid : option string)
    (text : string) (st : State) :
  let req := run_request env cu sid text in
  let kept := mkState (user_sessions st) (logged st (EPost req)) in
  let cleared := mkState ∅ (logged st (EPost req)) in
  send_query_to_adk env cu sid text st =
  match requests_post env req with
  | PostRaises => (Ret (JStr resend_apology), cleared)
  | PostReturns r =>
      if (400 <=? status_code r) && (status_code r <? 600)
      then (Ret (JStr resend_apology), cleared)
      else match decoded_body r with
           | None =>
               if json_error_is_RequestException env
               then (Ret (JStr resend_apology), cleared)
               else (Ret (JStr unexpected_response), kept)
           | Some v => (extract_reply v, kept)
           end
  end.
Proof.
  intros req kept cleared. subst kept cleared. unfold logged.
  unfold_m. fold (run_request env cu sid text). fold req. cbn.
  destruct (requests_post env req) as [|r]; cbn; [reflexivity|].
  destruct ((400 <=? status_code r) && (status_code r <? 600)); cbn;
    [reflexivity|].
  destruct (decoded_body r) as [v|]; cbn.
  - destruct (extract_reply v) as [t|e] eqn:Hx; [reflexivity|].
    apply extract_reply_raises in Hx as [-> | ->]; reflexivity.
  - destruct (json_error_is_RequestException env); reflexivity.
Qed.

(** ** Ensuring a session (lines 164-179) *)

Lemma ensure_session_run (env : Env) (uid : Z) (st : State) :
  let req := create_request env (pretty uid) in
  ensure_session env uid st =
  if Py.truthy_str (user_sessions st !! uid) then
    (Ret (Some (Some ("discord_" +:+ pretty uid), user_sessions st !! uid)), st)
  else if transport_failure (requests_post env req) then
    (Ret None,
     mkState (user_sessions st)
             (log st ++ [EPost req; ESend (JStr no_session_created)]))
  else
    (Ret (Some (Some ("discord_" +:+ pretty uid), Some (str_uuid (uuid4 env)))),
     mkState (<[uid := str_uuid (uuid4 env)]> (user_sessions st))
             (log st ++ [EPost req])).
Proof.
  intros req. unfold ensure_session, bind at 1, sessions_get.
  destruct (Py.truthy_str (user_sessions st !! uid)); [reflexivity|].
  unfold bind at 1. rewrite create_adk_session_run. fold req.
  destruct (transport_failure (requests_post env req)).
  - unfold_m. cbn. rewrite <- app_assoc. reflexivity.
  - rewrite str_uuid_nonempty. reflexivity.
Qed.

Lemma ensured_ids_truthy (env : Env) (uid : Z) (st st' : State)
    (cu sid : option string) :
  ensure_session env uid st = (Ret (Some (cu, sid)), st') →
  Py.truthy_str cu = true ∧ Py.truthy_str sid = true.
Proof.
  rewrite ensure_session_run.
  destruct (Py.truthy_str (user_sessions st !! uid)) eqn:Hhit.
  - intros [= <- <- <-]. rewrite Hhit. split; reflexivity.
  - destruct (transport_failure _); [discriminate|].
    intros [= <- <- <-]. cbn. rewrite str_uuid_nonempty. split; reflexivity.
Qed.

(** Past line 179 the handler always goes into the typing block of
    lines 185-187. *)
Lemma on_message_enters_typing (env : Env) (m : Message) (st st1 : State)
    (cu sid : option string) :
  processed env m = true →
  content m ≠ "" →
  ensure_session env (author m) st = (Ret (Some (cu, sid)), st1) →
  on_message env m st =
  typing (let* adk_response := send_query_to_adk env cu sid (content m) in
          channel_send adk_response) st1.
Proof.
  intros Hp Hc Hens. unfold processed in Hp. apply andb_prop in Hp as [Ha Hd].
  apply negb_true_iff in Ha. apply eqb_empty_false in Hc.
  unfold on_message. rewrite Ha, Hc. destruct (channel m); try discriminate.
  unfold bind at 1. rewrite Hens.
  apply ensured_ids_truthy in Hens as [-> ->]. reflexivity.
Qed.

(** C10. On every path that reaches the check of line 181 (a processed
    message with text for which lines 164-179 did not return), both
    [current_adk_user_id] and [adk_session_id] are non-empty strings, so
    the condition [not current_adk_user_id or not adk_session_id] is
    false: the handler goes on into the typing block, and the "There was
    an issue with your session" reply of that branch is never sent. *)
Theorem session_issue_branch_unreachable (env : Env) (m : Message)
    (st st1 : State) (cu sid : option string) :
  processed env m = true →
  content m ≠ "" →
  ensure_session env (author m) st = (Ret (Some (cu, sid)), st1) →
  Py.truthy_str cu = true ∧ Py.truthy_str sid = true
  ∧ negb (Py.truthy_str cu) || negb (Py.truthy_str sid) = false
  ∧ on_message env m st =
    typing (let* adk_response := send_query_to_adk env cu sid (content m) in
            channel_send adk_response) st1.
Proof.
  intros Hp Hc Hens.
  destruct (ensured_ids_truthy env _ st st1 cu sid Hens) as [Hcu Hsid].
  rewrite Hcu, Hsid. repeat split.
  exact (on_message_enters_typing env m st st1 cu sid Hp Hc Hens).
Qed.

Lemma session_issue_branch_unreachable_witness :
  Py.truthy_str (Some "discord_5") = true ∧ Py.truthy_str (Some "s-5") = true
  ∧ negb (Py.truthy_str (Some "discord_5")) || negb (Py.truthy_str (Some "s-5"))
    = false
  ∧ on_message env_down hi_from_alice st_alice =
    typing (let* adk_response :=
              send_query_to_adk env_down (Some "discord_5") (Some "s-5")
                                (content hi_from_alice) in
            channel_send adk_response) st_alice.
Proof.
  apply (session_issue_branch_unreachable env_down hi_from_alice st_alice st_alice).
  - reflexivity.
  - discriminate.
  - vm_compute. reflexivity.
Defined.

(** ** The handler, path by path *)

(** C8. A direct message with empty text, not written by the bot, gets
    the static greeting as its only effect: no request is posted (neither
    operation of the agent client runs) and [user_sessions] is unchanged. *)
Theorem empty_text_short_circuits (env : Env) (m : Message) (st : State) :
  processed env m = true →
  content m = "" →
  on_message env m st =
  (Ret tt, mkState (user_sessions st) (log st ++ [ESend (JStr greeting)])).
Proof.
  unfold processed, on_message. intros Hp Hc.
  apply andb_prop in Hp as [Ha Hd]. apply negb_true_iff in Ha.
  rewrite Ha, Hc. destruct (channel m); try discriminate. reflexivity.
Qed.

Lemma empty_text_short_circuits_witness :
  on_message env_down (mkMessage 5 DMChannel "") st_alice =
  (Ret tt, mkState (user_sessions st_alice) (log st_alice ++ [ESend (JStr greeting)])).
Proof.
  apply (empty_text_short_circuits env_down (mkMessage 5 DMChannel "") st_alice);
    reflexivity.
Defined.

(** C4. When the user has no usable registry entry and the creation
    request meets a transport failure, [create_adk_session] returns
    [(None, None)], and the handler sends the "couldn't create" text as
    its only reply, posts nothing else and leaves [user_sessions] as it
    was. *)
Theorem create_failure_no_registration (env : Env) (m : Message) (st : State) :
  let req := create_request env (pretty (author m)) in
  processed env m = true →
  content m ≠ "" →
  Py.truthy_str (user_sessions st !! author m) = false →
  transport_failure (requests_post env req) = true →
  create_adk_session env (pretty (author m)) st =
    (Ret (None, None), mkState (user_sessions st) (log st ++ [EPost req]))
  ∧ on_message env m st =
    (Ret tt, mkState (user_sessions st)
                     (log st ++ [EPost req; ESend (JStr no_session_created)])).
Proof.
  intros req Hp Hc Hmiss Hfail. split.
  - rewrite create_adk_session_run. fold req. rewrite Hfail. reflexivity.
  - unfold processed in Hp. apply andb_prop in Hp as [Ha Hd].
    apply negb_true_iff in Ha. apply eqb_empty_false in Hc.
    unfold on_message. rewrite Ha, Hc.
    destruct (channel m); try discriminate.
    unfold bind. rewrite ensure_session_run. fold req.
    rewrite Hmiss, Hfail. reflexivity.
Qed.

Lemma create_failure_no_registration_witness :
  create_adk_session env_down (pretty 6) st_alice =
    (Ret (None, None),
     mkState (user_sessions st_alice)
             (log st_alice ++ [EPost (create_request env_down (pretty 6))]))
  ∧ on_message env_down (mkMessage 6 DMChannel "hi") st_alice =
    (Ret tt, mkState (user_sessions st_alice)
                     (log st_alice ++ [EPost (create_request env_down (pretty 6));
                                       ESend (JStr no_session_created)])).
Proof.
  apply (create_failure_no_registration env_down (mkMessage 6 DMChannel "hi") st_alice).
  - reflexivity.
  - discriminate.
  - vm_compute. reflexivity.
  - reflexivity.
Defined.

(** ** The scan on well-formed turn sequences *)

Lemma scan_parts_wf (ps : list json) :
  forallb wf_part ps = true → scan_parts ps = Ret (first_text ps).
Proof.
  induction ps as [|p ps IH]; cbn; [reflexivity|].
  intros [Hp Hps]%andb_prop. destruct p as [| | | | | | d]; try discriminate.
  cbn. destruct (Py.dict_lookup "text" d) as [t|]; cbn; auto.
Qed.

Lemma scan_item_wf (turn : json) :
  wf_turn turn = true →
  scan_item turn = Ret (if is_model_turn turn then first_text_part turn else None).
Proof.
  unfold scan_item, is_model_item, first_text_part. intros Hwf.
  destruct turn as [| | | | | | d]; try discriminate Hwf.
  cbn -[Py.truthy] in *.
  destruct (Py.dict_lookup "content" d) as [c|]; [|reflexivity].
  destruct c as [| | | | | | c]; try discriminate Hwf; [reflexivity|].
  cbn -[Py.truthy] in *.
  destruct (Py.truthy (JDict c)); cbn; [|reflexivity].
  destruct (Py.eq_str _ "model"); cbn; [|reflexivity].
  destruct (Py.dict_lookup "parts" c) as [ps|]; cbn; [|reflexivity].
  destruct ps as [| | | | | ps |]; try discriminate Hwf. cbn.
  apply scan_parts_wf, Hwf.
Qed.

Lemma scan_items_wf (turns : list json) :
  forallb wf_turn turns = true →
  scan_items turns =
  Ret (match find (fun t => is_model_turn t && has_text t) turns with
       | Some turn => first_text_part turn
       | None => None
       end).
Proof.
  induction turns as [|t ts IH]; cbn; [reflexivity|].
  intros [Ht Hts]%andb_prop. rewrite (scan_item_wf t Ht). unfold has_text.
  destruct (is_model_turn t); cbn; [|auto].
  destruct (first_text_part t) as [v|] eqn:Hv; cbn; [|auto].
  rewrite Hv. reflexivity.
Qed.

Lemma extract_reply_wf (turns : list json) :
  forallb wf_turn turns = true →
  extract_reply (JList turns) =
  Ret (default (JStr no_model_text) (scan_extract turns)).
Proof.
  intros Hwf. unfold extract_reply, scan_extract. cbn.
  rewrite scan_items_wf; [reflexivity|].
  rewrite forallb_forall in *. intros t Ht. apply Hwf, in_rev, Ht.
Qed.

(** Where the most recent model-role turn does have a text part, the two
    readings pick the same text. *)
Lemma spec_extract_scan_extract (turns : list json) (v : json) :
  spec_extract turns = Some v → scan_extract turns = Some v.
Proof.
  unfold spec_extract, scan_extract, has_text.
  induction (rev turns) as [|t ts IH]; cbn; [discriminate|].
  destruct (is_model_turn t); cbn; [|exact IH].
  intros Hv. rewrite Hv. exact Hv.
Qed.

(** C2, as stated, fails: on [turns_call_last] the scan answers "A",
    taken from the older model-role turn, while the first model-role
    turn met from the back has no text part at all. *)
Lemma first_model_turn_counterexample :
  forallb wf_turn turns_call_last = true
  ∧ extract_reply (JList turns_call_last) = Ret (JStr "A")
  ∧ find is_model_turn (rev turns_call_last) = Some turn_call
  ∧ first_text_part turn_call = None
  ∧ spec_extract turns_call_last = None.
Proof. repeat split; reflexivity. Qed.

(** C2, amended. For a response that is decoded without transport
    failure into a sequence of turn objects, [send_query_to_adk] returns
    the first text part of the first turn, scanning from the most recent
    turn backward, that has role "model" and has a text part (the fixed
    "couldn't understand" text when there is none); nothing but the log
    changes. *)
Theorem reply_is_first_model_text (env : Env) (cu sid : option string)
    (text : string) (st : State) (r : Response) (turns : list json) :
  let req := run_request env cu sid text in
  requests_post env req = PostReturns r →
  transport_failure (PostReturns r) = false →
  decoded_body r = Some (JList turns) →
  forallb wf_turn turns = true →
  send_query_to_adk env cu sid text st =
  (Ret (default (JStr no_model_text) (scan_extract turns)),
   mkState (user_sessions st) (log st ++ [EPost req])).
Proof.
  intros req Hpost Hok Hbody Hwf.
  rewrite send_query_to_adk_run. fold req. rewrite Hpost.
  cbn in Hok. rewrite Hok, Hbody, (extract_reply_wf turns Hwf). reflexivity.
Qed.

Lemma reply_is_first_model_text_witness :
  send_query_to_adk env_call_last (Some "discord_5") (Some "s-5") "hi" st_alice =
  (Ret (JStr "A"),
   mkState (user_sessions st_alice)
           (log st_alice ++
            [EPost (run_request env_call_last (Some "discord_5") (Some "s-5") "hi")])).
Proof.
  apply (reply_is_first_model_text env_call_last (Some "discord_5") (Some "s-5")
           "hi" st_alice (mkResponse 200 (Some (JList turns_call_last)))
           turns_call_last); reflexivity.
Defined.

(** ** Relaying (lines 185-187) *)

Lemma replies_app (l1 l2 : list Event) :
  replies (l1 ++ l2) = replies l1 ++ replies l2.
Proof.
  induction l1 as [|e l1 IH]; cbn; [reflexivity|].
  destruct e; cbn; rewrite ?IH; reflexivity.
Qed.

Lemma posts_app (l1 l2 : list Event) :
  posts (l1 ++ l2) = posts l1 ++ posts l2.
Proof.
  induction l1 as [|e l1 IH]; cbn; [reflexivity|].
  destruct e; cbn; rewrite ?IH; reflexivity.
Qed.

(** Once a session is ensured the handler runs [send_query_to_adk]
    inside the typing block and sends whatever it returns; an exception
    leaves the block without any reply. *)
Lemma on_message_relay (env : Env) (m : Message) (st st1 : State)
    (cu sid : option string) :
  processed env m = true →
  content m ≠ "" →
  ensure_session env (author m) st = (Ret (Some (cu, sid)), st1) →
  on_message env m st =
  match send_query_to_adk env cu sid (content m)
          (mkState (user_sessions st1) (log st1 ++ [ETypingEnter])) with
  | (Ret t, st2) =>
      (Ret tt, mkState (user_sessions st2) (log st2 ++ [ESend t; ETypingExit]))
  | (Raise e, st2) =>
      (Raise e, mkState (user_sessions st2) (log st2 ++ [ETypingExit]))
  end.
Proof.
  intros Hp Hc Hens.
  rewrite (on_message_enters_typing env m st st1 cu sid Hp Hc Hens).
  unfold typing, finally, bind, emit, channel_send. cbn.
  destruct (send_query_to_adk _ _ _ _ _) as [[t|e] st2]; cbn.
  - rewrite <- app_assoc. reflexivity.
  - reflexivity.
Qed.

Lemma ensure_session_replies (env : Env) (uid : Z) (st st1 : State)
    (ids : option string * option string) :
  ensure_session env uid st = (Ret (Some ids), st1) →
  replies (log st1) = replies (log st).
Proof.
  rewrite ensure_session_run.
  destruct (Py.truthy_str _); [intros [= <- <-]; reflexivity|].
  destruct (transport_failure _); [discriminate|].
  intros [= <- <-]. cbn. rewrite replies_app. cbn. apply app_nil_r.
Qed.

(** C1. When the handler has ensured a session and the run request
    meets a transport failure (the post raises, or a 4xx/5xx status),
    the handler ends with [user_sessions] empty, so no user has an entry
    any more, and its one reply is the fixed resend apology. *)
Theorem transport_failure_clears_registry (env : Env) (m : Message)
    (st st1 : State) (cu sid : option string) :
  processed env m = true →
  content m ≠ "" →
  ensure_session env (author m) st = (Ret (Some (cu, sid)), st1) →
  transport_failure
    (requests_post env (run_request env cu sid (content m))) = true →
  ∃ st2, on_message env m st = (Ret tt, st2)
         ∧ user_sessions st2 = ∅
         ∧ (∀ u : Z, user_sessions st2 !! u = None)
         ∧ replies (log st2) = replies (log st) ++ [JStr resend_apology].
Proof.
  intros Hp Hc Hens Hfail.
  rewrite (on_message_relay env m st st1 cu sid Hp Hc Hens).
  rewrite send_query_to_adk_run.
  set (req := run_request env cu sid (content m)) in *.
  assert (Hrun :
    match requests_post env req with
    | PostRaises => true
    | PostReturns r => (400 <=? status_code r) && (status_code r <? 600)
    end = true) by exact Hfail.
  destruct (requests_post env req) as [|r]; [|rewrite Hrun];
    (eexists; split; [reflexivity|]; cbn; split; [reflexivity|]; split;
     [intros u; apply lookup_empty|]);
    unfold logged; cbn; rewrite !replies_app; cbn;
    rewrite (ensure_session_replies env _ st st1 _ Hens), <- !app_assoc;
    reflexivity.
Qed.

Lemma transport_failure_clears_registry_witness :
  ∃ st2, on_message env_down hi_from_alice st_alice = (Ret tt, st2)
         ∧ user_sessions st2 = ∅
         ∧ (∀ u : Z, user_sessions st2 !! u = None)
         ∧ replies (log st2) = replies (log st_alice) ++ [JStr resend_apology].
Proof.
  apply (transport_failure_clears_registry env_down hi_from_alice
           st_alice st_alice (Some "discord_5") (Some "s-5")).
  - reflexivity.
  - discriminate.
  - vm_compute. reflexivity.
  - reflexivity.
Defined.

(** C3, as stated, fails: with Alice's session registered and the
    backend unreachable, [send_query_to_adk] itself returns normally
    with the apology text and leaves [user_sessions] without her entry;
    the failure is not passed on to the caller. *)
Lemma agent_client_mutates_registry_counterexample :
  let req := run_request env_down (Some "discord_5") (Some "s-5") "hi" in
  let out := send_query_to_adk env_down (Some "discord_5") (Some "s-5") "hi" st_alice in
  transport_failure (requests_post env_down req) = true
  ∧ user_sessions st_alice !! 5 = Some "s-5"
  ∧ fst out = Ret (JStr resend_apology)
  ∧ user_sessions (snd out) !! 5 = None
  ∧ user_sessions (snd out) ≠ user_sessions st_alice.
Proof.
  cbn zeta. repeat split; try (vm_compute; reflexivity).
  intros H. apply (f_equal (λ r : gmap Z string, r !! 5)) in H.
  vm_compute in H. discriminate H.
Qed.

(** C3, amended. On a transport failure it is [send_query_to_adk]
    itself that clears the whole of [user_sessions]; it then returns the
    fixed apology text as an ordinary result, so no failure reaches the
    handler.  Its only other effect is the one post it logged. *)
Theorem transport_failure_handled_in_client (env : Env)
    (cu sid : option string) (text : string) (st : State) :
  let req := run_request env cu sid text in
  transport_failure (requests_post env req) = true →
  send_query_to_adk env cu sid text st =
  (Ret (JStr resend_apology), mkState ∅ (log st ++ [EPost req])).
Proof.
  intros req Hfail. rewrite send_query_to_adk_run. fold req.
  unfold transport_failure in Hfail.
  destruct (requests_post env req) as [|r]; [reflexivity|].
  rewrite Hfail. reflexivity.
Qed.

Lemma transport_failure_handled_in_client_witness :
  send_query_to_adk env_down (Some "discord_5") (Some "s-5") "hi" st_alice =
  (Ret (JStr resend_apology),
   mkState ∅ (log st_alice ++
              [EPost (run_request env_down (Some "discord_5") (Some "s-5") "hi")])).
Proof.
  apply (transport_failure_handled_in_client env_down (Some "discord_5")
           (Some "s-5") "hi" st_alice).
  reflexivity.
Defined.

(** ** Registry hits *)

(** The handler returns at once for a message it ignores. *)
Lemma on_message_ignored (env : Env) (m : Message) (st : State) :
  processed env m = false → on_message env m st = (Ret tt, st).
Proof.
  unfold processed, on_message. destruct (author m =? client_user env); cbn.
  - reflexivity.
  - destruct (channel m); [discriminate| | |]; reflexivity.
Qed.

(** A message from a user whose entry is in a well-formed registry. *)
Lemma on_message_hit (env : Env) (m : Message) (st : State)
    (sid : string) :
  registry_wf (user_sessions st) →
  user_sessions st !! author m = Some sid →
  ∃ new,
    log (snd (on_message env m st)) = log st ++ new
    ∧ posts new =
        (if processed env m && negb (String.eqb (content m) "")
         then [run_request env (Some ("discord_" +:+ pretty (author m)))
                 (Some sid) (content m)]
         else [])
    ∧ (user_sessions (snd (on_message env m st)) = user_sessions st
       ∨ user_sessions (snd (on_message env m st)) = ∅).
Proof.
  intros Hwf Hlook.
  destruct (processed env m) eqn:Hp.
  2:{ rewrite on_message_ignored by exact Hp. exists []. cbn.
      rewrite app_nil_r. auto. }
  destruct (String.eqb (content m) "") eqn:Hc.
  { pose proof Hp as Hp'. unfold processed in Hp'.
    apply andb_prop in Hp' as [Ha Hd]. apply negb_true_iff in Ha.
    unfold on_message. rewrite Ha, Hc. destruct (channel m); try discriminate.
    exists [ESend (JStr greeting)]. cbn. auto. }
  assert (Hsid : String.eqb sid "" = false)
    by (apply eqb_empty_false; eauto).
  assert (Hens : ensure_session env (author m) st =
                 (Ret (Some (Some ("discord_" +:+ pretty (author m)), Some sid)), st)).
  { rewrite ensure_session_run, Hlook. cbn. rewrite Hsid. reflexivity. }
  apply eqb_empty_false in Hc.
  rewrite (on_message_relay env m st st _ _ Hp Hc Hens).
  rewrite send_query_to_adk_run.
  set (req := run_request env _ _ _). unfold logged. cbn [log user_sessions andb negb].
  destruct (requests_post env req) as [|r].
  { eexists [ETypingEnter; EPost req; ESend _; ETypingExit]. cbn.
    rewrite <- !app_assoc. auto. }
  destruct ((400 <=? status_code r) && (status_code r <? 600)).
  { eexists [ETypingEnter; EPost req; ESend _; ETypingExit]. cbn.
    rewrite <- !app_assoc. auto. }
  destruct (decoded_body r) as [v|].
  - destruct (extract_reply v) as [t|e].
    + exists [ETypingEnter; EPost req; ESend t; ETypingExit]. cbn.
      rewrite <- !app_assoc. auto.
    + exists [ETypingEnter; EPost req; ETypingExit]. cbn.
      rewrite <- !app_assoc. auto.
  - destruct (json_error_is_RequestException env);
      (eexists [ETypingEnter; EPost req; ESend _; ETypingExit]; cbn;
       rewrite <- !app_assoc; auto).
Qed.

Lemma st_alice_wf : registry_wf (user_sessions st_alice).
Proof.
  intros u sid H. cbn in H.
  apply lookup_singleton_Some in H as [_ <-]. discriminate.
Defined.

(** ** Every way the relay step can end *)

Lemma relay_outcome (env : Env) (cu sid : option string) (text : string)
    (st1 : State) :
  let req := run_request env cu sid text in
  let out :=
    match send_query_to_adk env cu sid text
            (mkState (user_sessions st1) (log st1 ++ [ETypingEnter])) with
    | (Ret t, st2) =>
        (Ret tt, mkState (user_sessions st2) (log st2 ++ [ESend t; ETypingExit]))
    | (Raise e, st2) =>
        (Raise e, mkState (user_sessions st2) (log st2 ++ [ETypingExit]))
    end in
  (∃ t R, out = (Ret tt, mkState R (log st1 ++ [ETypingEnter; EPost req;
                                                ESend t; ETypingExit]))
          ∧ (R = user_sessions st1 ∨ R = ∅))
  ∨ (∃ e, out = (Raise e, mkState (user_sessions st1)
                             (log st1 ++ [ETypingEnter; EPost req; ETypingExit]))
          ∧ (e = AttributeError ∨ e = TypeError)).
Proof.
  intros req out. subst out. rewrite send_query_to_adk_run. fold req.
  unfold logged. cbn [log user_sessions].
  destruct (requests_post env req) as [|r].
  { left. do 2 eexists. cbn. rewrite <- !app_assoc. cbn. split; [reflexivity | auto]. }
  destruct ((400 <=? status_code r) && (status_code r <? 600)).
  { left. do 2 eexists. cbn. rewrite <- !app_assoc. cbn. split; [reflexivity | auto]. }
  destruct (decoded_body r) as [v|].
  - destruct (extract_reply v) as [t|e] eqn:Hx.
    + left. do 2 eexists. cbn. rewrite <- !app_assoc. cbn. split; [reflexivity | auto].
    + right. exists e. cbn. rewrite <- !app_assoc. cbn.
      split; [reflexivity | eapply extract_reply_raises, Hx].
  - destruct (json_error_is_RequestException env);
      left; do 2 eexists; cbn; rewrite <- !app_assoc; cbn; (split; [reflexivity | auto]).
Qed.

(** With text, a processed message either stops at a failed creation
    or goes on to the relay step. *)
Lemma on_message_with_text (env : Env) (m : Message) (st : State) :
  processed env m = true →
  content m ≠ "" →
  (∃ st1 cu sid,
      ensure_session env (author m) st = (Ret (Some (cu, sid)), st1)
      ∧ replies (log st1) = replies (log st)
      ∧ (user_sessions st1 = user_sessions st
         ∨ user_sessions st1 =
           <[author m := str_uuid (uuid4 env)]> (user_sessions st)))
  ∨ on_message env m st =
    (Ret tt, mkState (user_sessions st)
               (log st ++ [EPost (create_request env (pretty (author m)));
                           ESend (JStr no_session_created)])).
Proof.
  intros Hp Hc.
  destruct (ensure_session env (author m) st) as [ens st1] eqn:Hens.
  pose proof Hens as Hrun. rewrite ensure_session_run in Hrun.
  destruct (Py.truthy_str (user_sessions st !! author m));
    [|destruct (transport_failure _)]; injection Hrun as <- <-.
  - left. do 3 eexists. split; [reflexivity | auto].
  - right. unfold processed in Hp. apply andb_prop in Hp as [Ha Hd].
    apply negb_true_iff in Ha. apply eqb_empty_false in Hc.
    unfold on_message. rewrite Ha, Hc. destruct (channel m); try discriminate.
    unfold bind. rewrite Hens. reflexivity.
  - left. do 3 eexists. split; [reflexivity|]. cbn. rewrite replies_app. cbn.
    rewrite app_nil_r. auto.
Qed.


(** The registry after a message is the registry before, or empty, or
    the registry before with the author's freshly created session. *)
Lemma on_message_registry (env : Env) (m : Message) (st : State) :
  let r' := user_sessions (snd (on_message env m st)) in
  r' = user_sessions st ∨ r' = ∅
  ∨ r' = <[author m := str_uuid (uuid4 env)]> (user_sessions st).
Proof.
  cbn zeta. destruct (processed env m) eqn:Hp.
  2:{ rewrite on_message_ignored by exact Hp. auto. }
  destruct (String.eqb (content m) "") eqn:Hc.
  { pose proof Hp as Hp'. unfold processed in Hp'.
    apply andb_prop in Hp' as [Ha Hd]. apply negb_true_iff in Ha.
    unfold on_message. rewrite Ha, Hc. destruct (channel m); try discriminate.
    cbn. auto. }
  apply eqb_empty_false in Hc.
  destruct (on_message_with_text env m st Hp Hc)
    as [(st1 & cu & sid & Hens & _ & Hreg) | ->].
  2:{ cbn. auto. }
  rewrite (on_message_relay env m st st1 cu sid Hp Hc Hens).
  destruct (relay_outcome env cu sid (content m) st1)
    as [(t & R & -> & [-> | ->]) | (e & -> & He)];
    cbn; destruct Hreg as [Hreg | Hreg]; rewrite ?Hreg; auto.
Qed.

Lemma registry_wf_empty : registry_wf ∅.
Proof. intros u sid H. rewrite lookup_empty in H. discriminate H. Qed.

(** Stored session ids stay non-empty: the handler only ever stores the
    string of a fresh UUID. *)
Lemma registry_wf_preserved (env : Env) (m : Message) (st : State) :
  registry_wf (user_sessions st) →
  registry_wf (user_sessions (snd (on_message env m st))).
Proof.
  intros Hwf.
  destruct (on_message_registry env m st) as [-> | [-> | ->]].
  - exact Hwf.
  - exact registry_wf_empty.
  - intros u sid. rewrite lookup_insert. case_decide.
    + intros [= <-]. apply eqb_empty_false, str_uuid_nonempty.
    + apply Hwf.
Qed.

(** C7. Take a user whose entry is in a well-formed registry (every
    stored id non-empty, which the handler preserves).  Handling a
    message of that user posts no creation request: the requests made
    are exactly the run request naming the stored session id when the
    message is relayed (processed, with text), and none otherwise; the
    registry afterwards is what it was or entirely empty.  And whoever
    wrote the message handled, the user's entry afterwards still holds
    the same session id unless the whole registry has been cleared. *)
Theorem existing_entry_reused (env : Env) (st : State) (u : Z) (sid : string) :
  registry_wf (user_sessions st) →
  user_sessions st !! u = Some sid →
  (∀ m, author m = u →
     ∃ new,
       log (snd (on_message env m st)) = log st ++ new
       ∧ posts new =
           (if processed env m && negb (String.eqb (content m) "")
            then [run_request env (Some ("discord_" +:+ pretty u))
                    (Some sid) (content m)]
            else [])
       ∧ (user_sessions (snd (on_message env m st)) = user_sessions st
          ∨ user_sessions (snd (on_message env m st)) = ∅))
  ∧ (∀ m, user_sessions (snd (on_message env m st)) !! u = Some sid
          ∨ user_sessions (snd (on_message env m st)) = ∅).
Proof.
  intros Hwf Hlook. split.
  - intros m <-. exact (on_message_hit env m st sid Hwf Hlook).
  - intros m. destruct (decide (author m = u)) as [<- | Hne].
    + destruct (on_message_hit env m st sid Hwf Hlook) as (_ & _ & _ & [-> | ->]);
        auto.
    + destruct (on_message_registry env m st) as [-> | [-> | ->]]; auto.
      left. rewrite lookup_insert_ne by exact Hne. exact Hlook.
Qed.

Lemma existing_entry_reused_witness :
  (∀ m, author m = 5 →
     ∃ new,
       log (snd (on_message env_call_last m st_alice)) = log st_alice ++ new
       ∧ posts new =
           (if processed env_call_last m && negb (String.eqb (content m) "")
            then [run_request env_call_last (Some ("discord_" +:+ pretty 5))
                    (Some "s-5") (content m)]
            else [])
       ∧ (user_sessions (snd (on_message env_call_last m st_alice))
            = user_sessions st_alice
          ∨ user_sessions (snd (on_message env_call_last m st_alice)) = ∅))
  ∧ (∀ m, user_sessions (snd (on_message env_call_last m st_alice)) !! 5
            = Some "s-5"
          ∨ user_sessions (snd (on_message env_call_last m st_alice)) = ∅).
Proof.
  apply (existing_entry_reused env_call_last st_alice 5 "s-5").
  - exact st_alice_wf.
  - vm_compute. reflexivity.
Defined.

(** ** Responses the scan does not survive *)

(** On a sequence of turn objects none of which has role "model" the
    scan does return the fixed text. *)
Lemma no_model_turn_fallback (turns : list json) :
  forallb wf_turn turns = true →
  find is_model_turn (rev turns) = None →
  extract_reply (JList turns) = Ret (JStr no_model_text).
Proof.
  intros Hwf Hnone. rewrite (extract_reply_wf turns Hwf).
  unfold scan_extract.
  assert (Hfind : find (λ t, is_model_turn t && has_text t) (rev turns) = None).
  { induction (rev turns) as [|t ts IH]; cbn in *; [reflexivity|].
    destruct (is_model_turn t); [discriminate|]. cbn. apply IH, Hnone. }
  rewrite Hfind. reflexivity.
Qed.

(** C6, at a failing input. The decoded body [[1]] holds no model-role
    turn, yet [send_query_to_adk] does not return the fixed text:
    [item.get] raises AttributeError, which neither [except] clause
    names, so the call ends in that exception. *)
Theorem no_model_turn_can_raise :
  find is_model_turn (rev [JInt 1]) = None
  ∧ extract_reply body_non_object = Raise AttributeError
  ∧ send_query_to_adk env_non_object (Some "discord_5") (Some "s-5") "hi" st_alice
    = (Raise AttributeError,
       mkState (user_sessions st_alice)
               [EPost (run_request env_non_object (Some "discord_5")
                         (Some "s-5") "hi")]).
Proof. repeat split; vm_compute; reflexivity. Qed.

(** C5, at a failing input. Alice's direct message "hi" is processed,
    her session is found, the backend answers 200 with [[1]]; the
    handler is left by the AttributeError from the scan and no reply at
    all is sent. *)
Theorem processed_message_without_reply :
  processed env_non_object hi_from_alice = true
  ∧ fst (on_message env_non_object hi_from_alice st_alice) = Raise AttributeError
  ∧ replies (log (snd (on_message env_non_object hi_from_alice st_alice))) = []
  ∧ user_sessions (snd (on_message env_non_object hi_from_alice st_alice))
    = user_sessions st_alice.
Proof. repeat split; vm_compute; reflexivity. Qed.

(** * Further properties of the code *)

(** ** [_get_authenticated_headers] *)

(** The helper never fails.  Its result starts with the JSON content
    type and holds at most one more header; a bearer token [tok] is
    attached exactly when a non-empty base URL is configured and the
    token fetch for that audience returned [tok].  A failed fetch
    degrades to the unauthenticated headers. *)
Theorem auth_headers_bearer_iff (env : Env) (tok : string) :
  ∃ rest,
    _get_authenticated_headers env = ("Content-Type", "application/json") :: rest
    ∧ (length rest ≤ 1)%nat
    ∧ (In ("Authorization", "Bearer " +:+ tok) rest
       ↔ ∃ base, ADK_BASE_URL env = Some base ∧ base ≠ ""
                 ∧ fetch_id_token env base = Some tok).
Proof.
  unfold _get_authenticated_headers.
  destruct (ADK_BASE_URL env) as [base|] eqn:Hb.
  2:{ exists []. split; [reflexivity|]. split; [cbn; lia|]. split.
      - intros [].
      - intros (b & [=] & _). }
  destruct (String.eqb base "") eqn:He.
  { exists []. split; [reflexivity|]. split; [cbn; lia|]. split.
    - intros [].
    - intros (b & [= <-] & Hne & _). apply eqb_empty_false in Hne. congruence. }
  apply eqb_empty_false in He.
  destruct (fetch_id_token env base) as [t|] eqn:Hf.
  - exists [("Authorization", "Bearer " +:+ t)].
    split; [reflexivity|]. split; [cbn; lia|]. split.
    + intros [H | []]. injection H as H. apply (inj (String.app "")) in H.
      exists base. repeat split; congruence.
    + intros (b & [= <-] & _ & Ht). left. congruence.
  - exists []. split; [reflexivity|]. split; [cbn; lia|]. split.
    + intros [].
    + intros (b & [= <-] & _ & Ht). congruence.
Qed.

(** ** [create_adk_session] *)

(** One call posts exactly the creation request, leaves [user_sessions]
    alone, and hands back the prefixed user id with the fresh session id
    exactly when that request met no transport failure. *)
Theorem create_adk_session_effect (env : Env) (uid : string) (st : State) :
  let req := create_request env uid in
  snd (create_adk_session env uid st)
    = mkState (user_sessions st) (log st ++ [EPost req])
  ∧ (fst (create_adk_session env uid st)
       = Ret (Some ("discord_" +:+ uid), Some (str_uuid (uuid4 env)))
     ↔ transport_failure (requests_post env req) = false).
Proof.
  intros req. rewrite create_adk_session_run. fold req. cbn [fst snd].
  split; [reflexivity|].
  destruct (transport_failure (requests_post env req)); split;
    congruence.
Qed.


(** ** [send_query_to_adk] *)

Lemma send_query_to_adk_split (env : Env) (cu sid : option string)
    (text : string) (st : State) :
  let req := run_request env cu sid text in
  send_query_to_adk env cu sid text st =
  (send_result env req,
   mkState (if send_clears env req then ∅ else user_sessions st)
           (log st ++ [EPost req])).
Proof.
  intros req. rewrite send_query_to_adk_run. fold req.
  unfold send_result, send_clears, logged.
  destruct (requests_post env req) as [|r]; [reflexivity|].
  destruct ((400 <=? status_code r) && (status_code r <? 600)); [reflexivity|].
  destruct (decoded_body r) as [v|]; [reflexivity|].
  destruct (json_error_is_RequestException env); reflexivity.
Qed.


(** Whatever the backend does, one call makes exactly one post, and it
    either leaves [user_sessions] as it was or empties it; it empties it
    exactly when the post raised, the status was 4xx/5xx, or the body
    was not JSON with a [requests] whose decode error is a
    RequestException.  In particular a response that was decoded never
    costs anyone a session, whatever its shape. *)
Theorem send_query_to_adk_registry_effect (env : Env) (cu sid : option string)
    (text : string) (st : State) :
  let req := run_request env cu sid text in
  let st' := snd (send_query_to_adk env cu sid text st) in
  log st' = log st ++ [EPost req]
  ∧ user_sessions st' = (if send_clears env req then ∅ else user_sessions st)
  ∧ (∀ r v, requests_post env req = PostReturns r →
            transport_failure (PostReturns r) = false →
            decoded_body r = Some v →
            user_sessions st' = user_sessions st).
Proof.
  intros req st'. subst st'. rewrite send_query_to_adk_split. fold req.
  cbn [snd log user_sessions]. repeat split.
  intros r v Hpost Hok Hbody. unfold send_clears. rewrite Hpost, Hbody.
  cbn in Hok. rewrite Hok. reflexivity.
Qed.



(** A body that is not JSON, under a status that is no error: with an
    older [requests] the reply is the "unexpected response" text and
    [user_sessions] is kept; with [requests] >= 2.27 the decode error is
    a RequestException, the first [except] clause wins, every session is
    dropped and the reply is the resend apology. *)
Theorem undecodable_body_reply (env : Env) (cu sid : option string)
    (text : string) (st : State) (r : Response) :
  let req := run_request env cu sid text in
  requests_post env req = PostReturns r →
  transport_failure (PostReturns r) = false →
  decoded_body r = None →
  send_query_to_adk env cu sid text st =
  if json_error_is_RequestException env
  then (Ret (JStr resend_apology), mkState ∅ (log st ++ [EPost req]))
  else (Ret (JStr unexpected_response),
        mkState (user_sessions st) (log st ++ [EPost req])).
Proof.
  intros req Hpost Hok Hbody. rewrite send_query_to_adk_split. fold req.
  unfold send_result, send_clears. rewrite Hpost, Hbody.
  cbn in Hok. rewrite Hok. cbn.
  destruct (json_error_is_RequestException env); reflexivity.
Qed.

Lemma undecodable_body_reply_witness :
  send_query_to_adk env_html (Some "discord_5") (Some "s-5") "hi" st_alice =
  (Ret (JStr resend_apology),
   mkState ∅ (log st_alice ++
              [EPost (run_request env_html (Some "discord_5") (Some "s-5") "hi")])).
Proof.
  apply (undecodable_body_reply env_html (Some "discord_5") (Some "s-5") "hi"
           st_alice (mkResponse 200 None)); reflexivity.
Defined.

(** ** The scan *)

Lemma find_none_forallb {A} (p : A → bool) (l : list A) :
  forallb (λ x, negb (p x)) l = true → find p l = None.
Proof.
  induction l as [|x l IH]; cbn; [reflexivity|].
  intros [Hx Hl]%andb_prop. apply negb_true_iff in Hx. rewrite Hx. auto.
Qed.

Lemma forallb_rev {A} (p : A → bool) (l : list A) :
  forallb p l = true → forallb p (rev l) = true.
Proof.
  rewrite !forallb_forall. intros H x Hx. apply H, in_rev, Hx.
Qed.

(** A decoded sequence of turn objects in which no model-role turn has a
    text part (no model-role turn at all, or only function calls and
    the like) is answered with the fixed "couldn't understand" text;
    nothing is raised and [user_sessions] is kept. *)
Theorem no_model_text_reply (env : Env) (cu sid : option string)
    (text : string) (st : State) (r : Response) (turns : list json) :
  let req := run_request env cu sid text in
  requests_post env req = PostReturns r →
  transport_failure (PostReturns r) = false →
  decoded_body r = Some (JList turns) →
  forallb wf_turn turns = true →
  forallb (λ t, negb (is_model_turn t && has_text t)) turns = true →
  send_query_to_adk env cu sid text st =
  (Ret (JStr no_model_text),
   mkState (user_sessions st) (log st ++ [EPost req])).
Proof.
  intros req Hpost Hok Hbody Hwf Hnone.
  rewrite send_query_to_adk_split. fold req.
  unfold send_result, send_clears. rewrite Hpost, Hbody.
  cbn in Hok. rewrite Hok. cbn [orb].
  rewrite (extract_reply_wf turns Hwf). unfold scan_extract.
  rewrite (find_none_forallb _ _ (forallb_rev _ _ Hnone)). reflexivity.
Qed.

Lemma no_model_text_reply_witness :
  send_query_to_adk env_calls_only (Some "discord_5") (Some "s-5") "hi" st_alice =
  (Ret (JStr no_model_text),
   mkState (user_sessions st_alice)
           (log st_alice ++
            [EPost (run_request env_calls_only (Some "discord_5") (Some "s-5") "hi")])).
Proof.
  apply (no_model_text_reply env_calls_only (Some "discord_5") (Some "s-5") "hi"
           st_alice (mkResponse 200 (Some (JList [turn_text "user" "hi"; turn_call])))
           [turn_text "user" "hi"; turn_call]); reflexivity.
Defined.

Lemma scan_items_skip (skipped rest : list json) :
  Forall (λ x, scan_item x = Ret None) skipped →
  scan_items (skipped ++ rest) = scan_items rest.
Proof.
  induction 1 as [|x l Hx _ IH]; cbn; [reflexivity|].
  rewrite Hx. cbn. exact IH.
Qed.

(** The scan stops at the answer: once the most recent model-role turn
    with a text part is found, nothing older is looked at, so whatever
    precedes it in the response, malformed or not, neither changes the
    reply nor raises. *)
Theorem older_turns_are_not_inspected (older newer : list json) (t v : json) :
  wf_turn t = true →
  is_model_turn t = true →
  first_text_part t = Some v →
  forallb wf_turn newer = true →
  forallb (λ x, negb (is_model_turn x && has_text x)) newer = true →
  extract_reply (JList (older ++ t :: newer)) = Ret v.
Proof.
  intros Hwf Hmodel Htext Hnwf Hnone.
  unfold extract_reply. cbn [Py.reversed Py.iter rbind].
  rewrite rev_app_distr. cbn [rev]. rewrite <- app_assoc. cbn [app].
  rewrite scan_items_skip.
  - cbn [scan_items]. rewrite (scan_item_wf t Hwf), Hmodel, Htext. reflexivity.
  - apply Forall_forall. intros x Hx. apply list_elem_of_In, in_rev in Hx.
    rewrite forallb_forall in Hnwf, Hnone.
    rewrite (scan_item_wf x (Hnwf x Hx)).
    specialize (Hnone x Hx). apply negb_true_iff in Hnone.
    unfold has_text in Hnone.
    destruct (is_model_turn x); [|reflexivity].
    destruct (first_text_part x); [discriminate | reflexivity].
Qed.

Lemma older_turns_are_not_inspected_witness :
  extract_reply (JList ([JInt 1; JNull] ++ turn_text "model" "A" :: [turn_call]))
  = Ret (JStr "A").
Proof.
  apply (older_turns_are_not_inspected [JInt 1; JNull] [turn_call]
           (turn_text "model" "A") (JStr "A")); reflexivity.
Defined.

(** ** [on_message] *)

Lemma on_message_relay_trace (env : Env) (m : Message) (st st1 : State)
    (cu sid : option string) :
  let req := run_request env cu sid (content m) in
  processed env m = true →
  content m ≠ "" →
  ensure_session env (author m) st = (Ret (Some (cu, sid)), st1) →
  on_message env m st =
  (match send_result env req with Ret _ => Ret tt | Raise e => Raise e end,
   mkState (if send_clears env req then ∅ else user_sessions st1)
           (log st1 ++ relay_events req (send_result env req))).
Proof.
  intros req Hp Hc Hens.
  rewrite (on_message_relay env m st st1 cu sid Hp Hc Hens).
  rewrite send_query_to_adk_split. fold req. unfold relay_events.
  destruct (send_result env req) as [t|e]; cbn; rewrite <- !app_assoc;
    reflexivity.
Qed.

Lemma log_grows_not_same {A} (l new : list A) : new ≠ [] → l ++ new ≠ l.
Proof.
  intros Hne Heq. apply Hne. apply (app_inv_head l). rewrite app_nil_r. exact Heq.
Qed.

(** The handler leaves no trace at all exactly for the messages it
    ignores: those written by the bot itself and those outside a direct
    message channel.  Every other message changes the state. *)
Theorem ignored_iff_no_effect (env : Env) (m : Message) (st : State) :
  on_message env m st = (Ret tt, st) ↔ processed env m = false.
Proof.
  split; [|apply on_message_ignored].
  destruct (processed env m) eqn:Hp; [|reflexivity]. intros Hsame. exfalso.
  assert (Hlog : log (snd (on_message env m st)) = log st)
    by (rewrite Hsame; reflexivity).
  revert Hlog. clear Hsame.
  destruct (String.eqb (content m) "") eqn:Hc.
  { pose proof Hp as Hp'. unfold processed in Hp'.
    apply andb_prop in Hp' as [Ha Hd]. apply negb_true_iff in Ha.
    unfold on_message. rewrite Ha, Hc. destruct (channel m); try discriminate.
    cbn. apply log_grows_not_same. discriminate. }
  apply eqb_empty_false in Hc.
  destruct (ensure_session env (author m) st) as [ens st1] eqn:Hens.
  pose proof Hens as Hrun. rewrite ensure_session_run in Hrun.
  destruct (Py.truthy_str (user_sessions st !! author m));
    [|destruct (transport_failure _)]; injection Hrun as <- <-.
  - rewrite (on_message_relay_trace env m st _ _ _ Hp Hc Hens). cbn.
    apply log_grows_not_same. unfold relay_events. discriminate.
  - destruct (on_message_with_text env m st Hp Hc)
      as [(st1 & cu & sid & Hens' & _) | ->]; [congruence|].
    cbn. apply log_grows_not_same. discriminate.
  - rewrite (on_message_relay_trace env m st _ _ _ Hp Hc Hens). cbn.
    rewrite <- app_assoc. apply log_grows_not_same. discriminate.
Qed.


(** The reply and the backend round trip happen inside the typing
    block, and the block is always left again: once a session is
    ensured, the handler adds "enter typing, post the run request, send
    the reply, leave typing", without the send when the scan raised. *)
Theorem relay_is_bracketed_by_typing (env : Env) (m : Message) (st st1 : State)
    (cu sid : option string) :
  let req := run_request env cu sid (content m) in
  processed env m = true →
  content m ≠ "" →
  ensure_session env (author m) st = (Ret (Some (cu, sid)), st1) →
  ∃ mid,
    log (snd (on_message env m st))
      = log st1 ++ [ETypingEnter; EPost req] ++ mid ++ [ETypingExit]
    ∧ match fst (on_message env m st) with
      | Ret _ => ∃ t, mid = [ESend t]
      | Raise _ => mid = []
      end.
Proof.
  intros req Hp Hc Hens.
  rewrite (on_message_relay_trace env m st st1 cu sid Hp Hc Hens). fold req.
  cbn [fst snd log]. unfold relay_events.
  destruct (send_result env req) as [t|e].
  - exists [ESend t]. split; [reflexivity | eauto].
  - exists []. split; reflexivity.
Qed.

Lemma relay_is_bracketed_by_typing_witness :
  ∃ mid,
    log (snd (on_message env_non_object hi_from_alice st_alice))
      = log st_alice
        ++ [ETypingEnter;
            EPost (run_request env_non_object (Some "discord_5") (Some "s-5")
                     (content hi_from_alice))]
        ++ mid ++ [ETypingExit]
    ∧ match fst (on_message env_non_object hi_from_alice st_alice) with
      | Ret _ => ∃ t, mid = [ESend t]
      | Raise _ => mid = []
      end.
Proof.
  apply (relay_is_bracketed_by_typing env_non_object hi_from_alice st_alice
           st_alice (Some "discord_5") (Some "s-5")).
  - reflexivity.
  - discriminate.
  - vm_compute. reflexivity.
Defined.

Lemma posts_relay_events (req : Request) (r : Res json) :
  posts (relay_events req r) = [req].
Proof. destruct r; reflexivity. Qed.

Lemma ensure_session_created (env : Env) (u : Z) (st : State) :
  Py.truthy_str (user_sessions st !! u) = false →
  transport_failure (requests_post env (create_request env (pretty u))) = false →
  ensure_session env u st =
  (Ret (Some (Some ("discord_" +:+ pretty u), Some (str_uuid (uuid4 env)))),
   mkState (<[u := str_uuid (uuid4 env)]> (user_sessions st))
           (log st ++ [EPost (create_request env (pretty u))])).
Proof.
  intros Hmiss Hok. rewrite ensure_session_run, Hmiss, Hok. reflexivity.
Qed.

Lemma ensure_session_found (env : Env) (u : Z) (st : State) (sid : string) :
  user_sessions st !! u = Some sid → sid ≠ "" →
  ensure_session env u st =
  (Ret (Some (Some ("discord_" +:+ pretty u), Some sid)), st).
Proof.
  intros Hlook Hne%eqb_empty_false. rewrite ensure_session_run, Hlook.
  cbn. rewrite Hne. reflexivity.
Qed.

(** First contact.  A processed message with text from a user without a
    usable entry, whose creation request succeeds, makes exactly two
    posts, the creation request and then the run request that names the
    session just created for that user.  The new entry is in
    [user_sessions] afterwards, also when the scan raised, unless the
    run request emptied the registry, which then takes the new entry
    with it. *)
Theorem first_contact_creates_then_sends (env : Env) (m : Message) (st : State) :
  let u := author m in
  let new_sid := str_uuid (uuid4 env) in
  let creq := create_request env (pretty u) in
  let rreq := run_request env (Some ("discord_" +:+ pretty u)) (Some new_sid)
                (content m) in
  processed env m = true →
  content m ≠ "" →
  Py.truthy_str (user_sessions st !! u) = false →
  transport_failure (requests_post env creq) = false →
  ∃ new,
    log (snd (on_message env m st)) = log st ++ new
    ∧ posts new = [creq; rreq]
    ∧ user_sessions (snd (on_message env m st))
      = (if send_clears env rreq then ∅ else <[u := new_sid]> (user_sessions st)).
Proof.
  intros u new_sid creq rreq Hp Hc Hmiss Hok.
  pose proof (ensure_session_created env u st Hmiss Hok) as Hens.
  rewrite (on_message_relay_trace env m st _ _ _ Hp Hc Hens).
  fold u new_sid creq rreq. cbn [snd log user_sessions].
  exists (EPost creq :: relay_events rreq (send_result env rreq)).
  split; [rewrite <- app_assoc; reflexivity|].
  split; [cbn [posts]; rewrite posts_relay_events; reflexivity | reflexivity].
Qed.

Lemma first_contact_creates_then_sends_witness :
  ∃ new,
    log (snd (on_message env_greets (mkMessage 6 DMChannel "hello") st_alice))
      = log st_alice ++ new
    ∧ posts new =
        [create_request env_greets (pretty 6);
         run_request env_greets (Some ("discord_" +:+ pretty 6))
           (Some (str_uuid (uuid4 env_greets))) "hello"]
    ∧ user_sessions (snd (on_message env_greets (mkMessage 6 DMChannel "hello")
                            st_alice))
      = (if send_clears env_greets
              (run_request env_greets (Some ("discord_" +:+ pretty 6))
                 (Some (str_uuid (uuid4 env_greets))) "hello")
         then ∅ else <[6 := str_uuid (uuid4 env_greets)]> (user_sessions st_alice)).
Proof.
  apply (first_contact_creates_then_sends env_greets
           (mkMessage 6 DMChannel "hello") st_alice).
  - reflexivity.
  - discriminate.
  - vm_compute. reflexivity.
  - vm_compute. reflexivity.
Defined.

(** Handling one message makes at most two posts, never two of a kind,
    and a creation request only ever comes first: the posts are none,
    the creation request alone, one run request alone, or the creation
    request followed by the run request for the session just created. *)
Theorem posts_per_message (env : Env) (m : Message) (st : State) :
  let u := author m in
  let creq := create_request env (pretty u) in
  ∃ new,
    log (snd (on_message env m st)) = log st ++ new
    ∧ (posts new = []
       ∨ posts new = [creq]
       ∨ (∃ sid, user_sessions st !! u = Some sid
                 ∧ posts new = [run_request env (Some ("discord_" +:+ pretty u))
                                  (Some sid) (content m)])
       ∨ posts new = [creq;
                      run_request env (Some ("discord_" +:+ pretty u))
                        (Some (str_uuid (uuid4 env))) (content m)]).
Proof.
  intros u creq.
  destruct (processed env m) eqn:Hp.
  2:{ rewrite on_message_ignored by exact Hp. exists []. cbn.
      rewrite app_nil_r. auto. }
  destruct (String.eqb (content m) "") eqn:Hc.
  { pose proof Hp as Hp'. unfold processed in Hp'.
    apply andb_prop in Hp' as [Ha Hd]. apply negb_true_iff in Ha.
    unfold on_message. rewrite Ha, Hc. destruct (channel m); try discriminate.
    exists [ESend (JStr greeting)]. cbn. auto. }
  apply eqb_empty_false in Hc.
  destruct (Py.truthy_str (user_sessions st !! u)) eqn:Hhit.
  - destruct (user_sessions st !! u) as [sid|] eqn:Hlook; [|discriminate].
    assert (Hne : sid ≠ "") by (apply eqb_empty_false, negb_true_iff, Hhit).
    pose proof (ensure_session_found env u st sid Hlook Hne) as Hens.
    rewrite (on_message_relay_trace env m st _ _ _ Hp Hc Hens).
    eexists. split; [reflexivity|]. right; right; left. exists sid.
    split; [reflexivity | apply posts_relay_events].
  - destruct (transport_failure (requests_post env creq)) eqn:Hcreate.
    + destruct (on_message_with_text env m st Hp Hc)
        as [(st1 & cu & sid & Hens & _) | ->].
      * rewrite ensure_session_run in Hens. fold u creq in Hens.
        rewrite Hhit, Hcreate in Hens. discriminate.
      * eexists. split; [reflexivity|]. right; left. reflexivity.
    + pose proof (ensure_session_created env u st Hhit Hcreate) as Hens.
      rewrite (on_message_relay_trace env m st _ _ _ Hp Hc Hens).
      cbn [snd log]. eexists (EPost creq :: relay_events _ _).
      split; [rewrite <- app_assoc; reflexivity|]. right; right; right.
      cbn [posts]. rewrite posts_relay_events. reflexivity.
Qed.

(** A message never edits another user's entry: after handling a
    message, every other user's entry is what it was, unless the whole
    registry was emptied.  There is no per-user eviction. *)
Theorem other_users_entries_untouched (env : Env) (m : Message) (st : State)
    (u : Z) :
  u ≠ author m →
  user_sessions (snd (on_message env m st)) !! u = user_sessions st !! u
  ∨ user_sessions (snd (on_message env m st)) = ∅.
Proof.
  intros Hne.
  destruct (on_message_registry env m st) as [-> | [-> | ->]]; auto.
  left. apply lookup_insert_ne. congruence.
Qed.

Lemma other_users_entries_untouched_witness :
  user_sessions (snd (on_message env_greets (mkMessage 6 DMChannel "hello") st_alice))
    !! 5 = user_sessions st_alice !! 5
  ∨ user_sessions (snd (on_message env_greets (mkMessage 6 DMChannel "hello") st_alice))
    = ∅.
Proof.
  apply (other_users_entries_untouched env_greets (mkMessage 6 DMChannel "hello")
           st_alice 5).
  cbn. lia.
Defined.

(** ** Messages in sequence *)

Lemma on_message_miss_posts (env : Env) (m : Message) (st : State) :
  processed env m = true →
  content m ≠ "" →
  Py.truthy_str (user_sessions st !! author m) = false →
  ∃ new rest,
    log (snd (on_message env m st)) = log st ++ new
    ∧ posts new = create_request env (pretty (author m)) :: rest.
Proof.
  intros Hp Hc Hmiss.
  set (creq := create_request env (pretty (author m))).
  destruct (transport_failure (requests_post env creq)) eqn:Hcreate.
  - destruct (on_message_with_text env m st Hp Hc)
      as [(st1 & cu & sid & Hens & _) | ->].
    + rewrite ensure_session_run in Hens. fold creq in Hens.
      rewrite Hmiss, Hcreate in Hens. discriminate.
    + do 2 eexists. split; reflexivity.
  - pose proof (ensure_session_created env _ st Hmiss Hcreate) as Hens.
    rewrite (on_message_relay_trace env m st _ _ _ Hp Hc Hens).
    cbn [snd log]. do 2 eexists.
    split; [rewrite <- app_assoc; reflexivity | reflexivity].
Qed.

(** The session created for a user's first message is the one the next
    message of that user runs in: if the first message got its session
    created and its run request did not empty the registry, then a
    second message with text from the same user makes a single post, the
    run request naming that same session id, whatever UUID and backend
    the second run meets. *)
Theorem second_message_reuses_session (env1 env2 : Env) (m1 m2 : Message)
    (st : State) :
  let u := author m1 in
  let sid := str_uuid (uuid4 env1) in
  let st1 := snd (on_message env1 m1 st) in
  processed env1 m1 = true →
  content m1 ≠ "" →
  Py.truthy_str (user_sessions st !! u) = false →
  transport_failure (requests_post env1 (create_request env1 (pretty u))) = false →
  send_clears env1 (run_request env1 (Some ("discord_" +:+ pretty u)) (Some sid)
                      (content m1)) = false →
  author m2 = u →
  processed env2 m2 = true →
  content m2 ≠ "" →
  ∃ new,
    log (snd (on_message env2 m2 st1)) = log st1 ++ new
    ∧ posts new = [run_request env2 (Some ("discord_" +:+ pretty u)) (Some sid)
                     (content m2)].
Proof.
  intros u sid st1 Hp1 Hc1 Hmiss Hok Hkeep Hauth Hp2 Hc2.
  pose proof (ensure_session_created env1 u st Hmiss Hok) as Hens1.
  assert (Hreg : user_sessions st1 = <[u := sid]> (user_sessions st)).
  { subst st1. rewrite (on_message_relay_trace env1 m1 st _ _ _ Hp1 Hc1 Hens1).
    cbn [snd user_sessions]. fold u sid. rewrite Hkeep. reflexivity. }
  assert (Hlook : user_sessions st1 !! author m2 = Some sid).
  { rewrite Hauth, Hreg. apply lookup_insert_eq. }
  assert (Hne : sid ≠ "") by apply eqb_empty_false, str_uuid_nonempty.
  pose proof (ensure_session_found env2 (author m2) st1 sid Hlook Hne) as Hens2.
  rewrite (on_message_relay_trace env2 m2 st1 _ _ _ Hp2 Hc2 Hens2).
  rewrite Hauth. eexists. split; [reflexivity | apply posts_relay_events].
Qed.

Lemma second_message_reuses_session_witness :
  ∃ new,
    log (snd (on_message env_down (mkMessage 6 DMChannel "again")
                (snd (on_message env_greets (mkMessage 6 DMChannel "hello") st_alice))))
      = log (snd (on_message env_greets (mkMessage 6 DMChannel "hello") st_alice))
        ++ new
    ∧ posts new = [run_request env_down (Some ("discord_" +:+ pretty 6))
                     (Some (str_uuid (uuid4 env_greets))) "again"].
Proof.
  apply (second_message_reuses_session env_greets env_down
           (mkMessage 6 DMChannel "hello") (mkMessage 6 DMChannel "again") st_alice).
  - reflexivity.
  - discriminate.
  - vm_compute. reflexivity.
  - vm_compute. reflexivity.
  - vm_compute. reflexivity.
  - reflexivity.
  - reflexivity.
  - discriminate.
Defined.

(** After a run request has emptied the registry, the next message with
    text starts over, whoever sends it: its first post is a creation
    request for its author, also for users whose session was not the
    one that failed. *)
Theorem after_clear_everyone_starts_over (env1 env2 : Env) (m1 m2 : Message)
    (st st1 : State) (cu sid : option string) :
  let st' := snd (on_message env1 m1 st) in
  processed env1 m1 = true →
  content m1 ≠ "" →
  ensure_session env1 (author m1) st = (Ret (Some (cu, sid)), st1) →
  send_clears env1 (run_request env1 cu sid (content m1)) = true →
  processed env2 m2 = true →
  content m2 ≠ "" →
  user_sessions st' = ∅
  ∧ ∃ new rest,
      log (snd (on_message env2 m2 st')) = log st' ++ new
      ∧ posts new = create_request env2 (pretty (author m2)) :: rest.
Proof.
  intros st' Hp1 Hc1 Hens Hclear Hp2 Hc2.
  assert (Hreg : user_sessions st' = ∅).
  { subst st'. rewrite (on_message_relay_trace env1 m1 st st1 cu sid Hp1 Hc1 Hens).
    cbn [snd user_sessions]. rewrite Hclear. reflexivity. }
  split; [exact Hreg|].
  apply on_message_miss_posts; [exact Hp2 | exact Hc2|].
  rewrite Hreg, lookup_empty. reflexivity.
Qed.

Lemma after_clear_everyone_starts_over_witness :
  user_sessions (snd (on_message env_down hi_from_alice st_two_users)) = ∅
  ∧ ∃ new rest,
      log (snd (on_message env_greets (mkMessage 6 DMChannel "hello")
                  (snd (on_message env_down hi_from_alice st_two_users))))
        = log (snd (on_message env_down hi_from_alice st_two_users)) ++ new
      ∧ posts new = create_request env_greets (pretty 6) :: rest.
Proof.
  apply (after_clear_everyone_starts_over env_down env_greets hi_from_alice
           (mkMessage 6 DMChannel "hello") st_two_users st_two_users
           (Some "discord_5") (Some "s-5")).
  - reflexivity.
  - discriminate.
  - vm_compute. reflexivity.
  - reflexivity.
  - reflexivity.
  - discriminate.
Defined.

Lemma on_message_registry_origin (env : Env) (m : Message) (st : State) :
  let r' := user_sessions (snd (on_message env m st)) in
  r' = user_sessions st ∨ r' = ∅
  ∨ (r' = <[author m := str_uuid (uuid4 env)]> (user_sessions st)
     ∧ processed env m = true ∧ content m ≠ "").
Proof.
  cbn zeta. destruct (processed env m) eqn:Hp.
  2:{ rewrite on_message_ignored by exact Hp. auto. }
  destruct (String.eqb (content m) "") eqn:Hc.
  { pose proof Hp as Hp'. unfold processed in Hp'.
    apply andb_prop in Hp' as [Ha Hd]. apply negb_true_iff in Ha.
    unfold on_message. rewrite Ha, Hc. destruct (channel m); try discriminate.
    cbn. auto. }
  apply eqb_empty_false in Hc.
  destruct (on_message_registry env m st) as [H | [H | H]]; auto.
Qed.

Lemma handle_all_entry_origin (events : list (Env * Message)) (st : State)
    (u : Z) (sid : string) :
  user_sessions (handle_all events st) !! u = Some sid →
  user_sessions st !! u = Some sid
  ∨ ∃ env m, In (env, m) events ∧ author m = u ∧ processed env m = true
             ∧ content m ≠ "" ∧ sid = str_uuid (uuid4 env).
Proof.
  revert st. induction events as [|[env m] rest IH]; intros st; cbn [handle_all].
  - auto.
  - intros Hfinal. destruct (IH _ Hfinal) as [Hmid | (env' & m' & Hin & Hrest)].
    2:{ right. exists env', m'. split; [right; exact Hin | exact Hrest]. }
    destruct (on_message_registry_origin env m st) as [Hr | [Hr | (Hr & Hp & Hc)]];
      rewrite Hr in Hmid.
    + left. exact Hmid.
    + rewrite lookup_empty in Hmid. discriminate.
    + destruct (decide (author m = u)) as [Hu | Hu].
      * subst u. rewrite lookup_insert_eq in Hmid. injection Hmid as <-.
        right. exists env, m. split; [left; reflexivity | auto].
      * rewrite lookup_insert_ne in Hmid by exact Hu. left. exact Hmid.
Qed.

(** Starting from the empty registry the module is loaded with, however
    many messages are handled one after the other: a session id stored
    for a user is a non-empty string, and it is the UUID generated while
    handling a message with text that this very user sent.  No user is
    ever given a session created for someone else. *)
Theorem stored_session_was_created_for_its_user
    (events : list (Env * Message)) (l : list Event) (u : Z) (sid : string) :
  user_sessions (handle_all events (mkState ∅ l)) !! u = Some sid →
  sid ≠ ""
  ∧ ∃ env m, In (env, m) events ∧ author m = u ∧ processed env m = true
             ∧ content m ≠ "" ∧ sid = str_uuid (uuid4 env).
Proof.
  intros [Hinit | (env & m & Hin & Hu & Hp & Hc & ->)]%handle_all_entry_origin.
  - cbn in Hinit. rewrite lookup_empty in Hinit. discriminate.
  - split; [apply eqb_empty_false, str_uuid_nonempty|].
    exists env, m. auto.
Qed.

Lemma stored_session_was_created_for_its_user_witness :
  "00000000-0000-0000-0000-000000000007" ≠ ""
  ∧ ∃ env m, In (env, m) [(env_non_object, hi_from_alice);
                           (env_greets, mkMessage 6 DMChannel "hello")]
             ∧ author m = 6 ∧ processed env m = true ∧ content m ≠ ""
             ∧ "00000000-0000-0000-0000-000000000007" = str_uuid (uuid4 env).
Proof.
  apply (stored_session_was_created_for_its_user
           [(env_non_object, hi_from_alice);
            (env_greets, mkMessage 6 DMChannel "hello")] [] 6).
  vm_compute. reflexivity.
Defined.

(** End to end: when the session is ensured and the backend answers the
    run request with a decoded sequence of turn objects, the user's one
    reply is the first text part of the most recent model-role turn that
    has one (the fixed "couldn't understand" text if there is none), and
    [user_sessions] is as the session step left it. *)
Theorem relayed_reply_is_model_text (env : Env) (m : Message) (st st1 : State)
    (cu sid : option string) (r : Response) (turns : list json) :
  processed env m = true →
  content m ≠ "" →
  ensure_session env (author m) st = (Ret (Some (cu, sid)), st1) →
  requests_post env (run_request env cu sid (content m)) = PostReturns r →
  transport_failure (PostReturns r) = false →
  decoded_body r = Some (JList turns) →
  forallb wf_turn turns = true →
  fst (on_message env m st) = Ret tt
  ∧ replies (log (snd (on_message env m st)))
    = replies (log st) ++ [default (JStr no_model_text) (scan_extract turns)]
  ∧ user_sessions (snd (on_message env m st)) = user_sessions st1.
Proof.
  intros Hp Hc Hens Hpost Hok Hbody Hwf.
  rewrite (on_message_relay_trace env m st st1 cu sid Hp Hc Hens).
  unfold send_result, send_clears. rewrite Hpost, Hbody.
  cbn in Hok. rewrite Hok. cbn [orb fst snd log user_sessions].
  rewrite (extract_reply_wf turns Hwf). unfold relay_events.
  rewrite !replies_app, (ensure_session_replies env _ st st1 _ Hens).
  repeat split.
Qed.

Lemma relayed_reply_is_model_text_witness :
  fst (on_message env_call_last hi_from_alice st_alice) = Ret tt
  ∧ replies (log (snd (on_message env_call_last hi_from_alice st_alice)))
    = replies (log st_alice)
      ++ [default (JStr no_model_text) (scan_extract turns_call_last)]
  ∧ user_sessions (snd (on_message env_call_last hi_from_alice st_alice))
    = user_sessions st_alice.
Proof.
  apply (relayed_reply_is_model_text env_call_last hi_from_alice st_alice st_alice
           (Some "discord_5") (Some "s-5")
           (mkResponse 200 (Some (JList turns_call_last))) turns_call_last).
  - reflexivity.
  - discriminate.
  - vm_compute. reflexivity.
  - reflexivity.
  - reflexivity.
  - reflexivity.
  - reflexivity.
Defined.
